(** * Provider configuration handshake of terraform-provider-artifactory

    A shallow embedding of [ArtifactoryProvider.Configure]
    (package [provider]) and of [unPackLocalGradleRepository] /
    [resourceArtifactoryLocalGradleRepository] (package [artifactory]),
    together with the properties of the credential, URL and preflight
    logic that the specification states about them.

    [Configure] mutates the response it is handed and calls a handful of
    collaborators from the shared client library.  It is modelled as a
    state-passing computation with an explicit early [return]; the state
    holds the response and the log of collaborator calls. *)

From Stdlib Require Import String List Bool Arith ZArith Lia Sorted.
Import ListNotations.
Local Open Scope list_scope.
Local Open Scope string_scope.

(** Go's [error] interface: [nil] is [None], an error carries the text
    that [err.Error()] returns. *)
Definition error : Type := option string.

Definition isErr (e : error) : bool :=
  match e with Some _ => true | None => false end.

Definition Error (e : error) : string :=
  match e with Some m => m | None => "" end.

(** ** Diagnostics (terraform-plugin-framework, package diag) *)

Module Diag.

Inductive Severity : Type := SeverityError | SeverityWarning.

Record Diagnostic : Type := mkDiagnostic {
  severity : Severity;
  Summary : string;
  Detail : string
}.

Definition Diagnostics : Type := list Diagnostic.

Definition severity_eqb (a b : Severity) : bool :=
  match a, b with
  | SeverityError, SeverityError => true
  | SeverityWarning, SeverityWarning => true
  | _, _ => false
  end.

Definition Equal (a b : Diagnostic) : bool :=
  severity_eqb (severity a) (severity b)
  && (Summary a =? Summary b) && (Detail a =? Detail b).

Definition NewErrorDiagnostic (summary detail : string) : Diagnostic :=
  mkDiagnostic SeverityError summary detail.

Definition Contains (diags : Diagnostics) (d : Diagnostic) : bool :=
  existsb (Equal d) diags.

(** [Append] adds the diagnostics that are not already in the collection. *)
Fixpoint Append (diags : Diagnostics) (ins : list Diagnostic) : Diagnostics :=
  match ins with
  | [] => diags
  | d :: rest => Append (if Contains diags d then diags else (diags ++ [d])%list) rest
  end.

Definition AddError (diags : Diagnostics) (summary detail : string) : Diagnostics :=
  Append diags [NewErrorDiagnostic summary detail].

Definition isError (d : Diagnostic) : bool :=
  severity_eqb (severity d) SeverityError.

Definition isWarning (d : Diagnostic) : bool :=
  severity_eqb (severity d) SeverityWarning.

Definition HasError (diags : Diagnostics) : bool := existsb isError diags.

End Diag.

(** ** Attribute values (terraform-plugin-framework, package types)

    A [types.String] or [types.Bool] is null, unknown or known;
    [ValueString] and [ValueBool] give the zero value unless it is known. *)

Module types.

Inductive String : Type :=
| StringNull
| StringUnknown
| StringValue (s : string).

Definition ValueString (v : String) : string :=
  match v with StringValue s => s | _ => "" end.

Inductive Bool : Type :=
| BoolNull
| BoolUnknown
| BoolValue (b : bool).

Definition IsNull (v : Bool) : bool :=
  match v with BoolNull => true | _ => false end.

Definition ValueBool (v : Bool) : bool :=
  match v with BoolValue b => b | _ => false end.

End types.

(** ** The provider *)

Module Provider.

Import Diag types.

(** ArtifactoryProviderModel describes the provider data model. *)
Record ArtifactoryProviderModel : Type := {
  Url : types.String;
  AccessToken : types.String;
  ApiKey : types.String;
  OIDCProviderName : types.String;
  CheckLicense : types.Bool
}.

(** The process environment: [os.Getenv], empty for an unset variable. *)
Definition Environ : Type := string -> string.

(** Modelled from the spec: util.CheckEnvVars, which lives in the shared
    library (terraform-provider-shared), outside this repository.  The
    variables are checked in order, the first non-empty one wins, and the
    default is returned when none is set. *)
Fixpoint CheckEnvVars (getenv : Environ) (vars : list string) (dv : string) : string :=
  match vars with
  | [] => dv
  | k :: rest =>
      if getenv k =? "" then CheckEnvVars getenv rest dv else getenv k
  end.

(** ResolvedCredential of the data model: exactly one of an access token
    and an API key. *)
Inductive ResolvedCredential : Type :=
| CredAccessToken (token : string)
| CredApiKey (key : string).

(** Modelled from the spec: the choice that the attachment step makes
    inside client.AddAuth, which lives in the shared library, outside this
    repository.  When both an access token and an API key resolve, the
    access token takes precedence. *)
Definition resolvedCredential (apiKey accessToken : string) : ResolvedCredential :=
  if accessToken =? "" then CredApiKey apiKey else CredAccessToken accessToken.

Section WithClient.

(** The resty client handle; nothing is known of it here. *)
Context {Client : Type}.

(** The package constant [productId], declared in another file of the
    package. *)
Variable productId : string.

(** util.ProviderMetadata *)
Record ProviderMetadata : Type := {
  meta_Client : Client;
  ProductId : string;
  ArtifactoryVersion : string
}.

(** provider.ConfigureRequest: the Terraform version and the provider
    block; [Config_Get] is what [req.Config.Get(ctx, &config)] decodes,
    with the diagnostics of the decoding. *)
Record ConfigureRequest : Type := {
  TerraformVersion : string;
  Config_Get : ArtifactoryProviderModel * Diagnostics
}.

(** provider.ConfigureResponse; an unset [any] field is [None]. *)
Record ConfigureResponse : Type := {
  Diagnostics_ : Diagnostics;
  DataSourceData : option ProviderMetadata;
  ResourceData : option ProviderMetadata
}.

(** The collaborators [Configure] calls, each with the pair of results
    that the Go function returns. *)
Record World : Type := {
  Getenv : Environ;
  client_Build : string -> string -> Client * error;
  idp_exchange : Client -> string -> string * error;
  client_AddAuth : Client -> string -> string -> Client * error;
  util_CheckArtifactoryLicense : Client -> list string -> error;
  util_GetArtifactoryVersion : Client -> string * error
}.

(** What a run of [Configure] does, in order: the calls to its
    collaborators, and the construction of the metadata value. *)
Inductive Event : Type :=
| EvBuild (url pid : string)
| EvExchange (c : Client) (providerName : string)
| EvAddAuth (c : Client) (apiKey accessToken : string)
| EvCheckLicense (c : Client) (tiers : list string)
| EvGetVersion (c : Client)
| EvSendUsage (c : Client) (pid featureUsage : string)
| EvMetadata (m : ProviderMetadata).

Record St : Type := {
  resp : ConfigureResponse;
  trace : list Event
}.

(** *** State with early return *)

Inductive Step (A : Type) : Type :=
| Continue (a : A)
| Returned.
Arguments Continue {A} a.
Arguments Returned {A}.

Definition M (A : Type) : Type := St -> Step A * St.

Definition ret {A} (a : A) : M A := fun s => (Continue a, s).

Definition bind {A B} (m : M A) (k : A -> M B) : M B :=
  fun s =>
    match m s with
    | (Continue a, s') => k a s'
    | (Returned, s') => (Returned, s')
    end.

(** Go's [return] in the middle of the function. *)
Definition return_ {A} : M A := fun s => (Returned, s).

Definition when (c : bool) (body : M unit) : M unit :=
  if c then body else ret tt.

Definition log (e : Event) : M unit :=
  fun s => (Continue tt, {| resp := resp s; trace := (trace s ++ [e])%list |}).

Definition call {A} (e : Event) (result : A) : M A :=
  bind (log e) (fun _ => ret result).

Definition modify_resp (f : ConfigureResponse -> ConfigureResponse) : M unit :=
  fun s => (Continue tt, {| resp := f (resp s); trace := trace s |}).

Definition Diagnostics_Append (ds : list Diagnostic) : M unit :=
  modify_resp (fun r =>
    {| Diagnostics_ := Append (Diagnostics_ r) ds;
       DataSourceData := DataSourceData r;
       ResourceData := ResourceData r |}).

Definition Diagnostics_AddError (summary detail : string) : M unit :=
  modify_resp (fun r =>
    {| Diagnostics_ := AddError (Diagnostics_ r) summary detail;
       DataSourceData := DataSourceData r;
       ResourceData := ResourceData r |}).

Definition Diagnostics_HasError : M bool :=
  fun s => (Continue (HasError (Diagnostics_ (resp s))), s).

Definition set_DataSourceData (m : ProviderMetadata) : M unit :=
  modify_resp (fun r =>
    {| Diagnostics_ := Diagnostics_ r;
       DataSourceData := Some m;
       ResourceData := ResourceData r |}).

Definition set_ResourceData (m : ProviderMetadata) : M unit :=
  modify_resp (fun r =>
    {| Diagnostics_ := Diagnostics_ r;
       DataSourceData := DataSourceData r;
       ResourceData := Some m |}).

Notation "x <- m ;; k" := (bind m (fun x => k))
  (at level 61, m at next level, right associativity).
Notation "' p <- m ;; k" := (bind m (fun x => match x with p => k end))
  (at level 61, p pattern, m at next level, right associativity).
Notation "m ;; k" := (bind m (fun _ => k))
  (at level 61, right associativity).

(** Modelled from the spec: util.OIDCTokenExchange, which lives in the
    shared library, outside this repository.  The exchange with the
    identity provider is attempted only if a provider name is configured;
    without one the result is the empty token and no error. *)
Definition util_OIDCTokenExchange (w : World) (c : Client) (oidcProviderName : string)
  : M (string * error) :=
  if oidcProviderName =? "" then ret ("", None)
  else call (EvExchange c oidcProviderName) (idp_exchange w c oidcProviderName).

(** [go util.SendUsage(...)]: the call is started and its outcome is
    never looked at. *)
Definition go_SendUsage (c : Client) (pid featureUsage : string) : M unit :=
  log (EvSendUsage c pid featureUsage).

Definition Configure (w : World) (req : ConfigureRequest) : M unit :=
  (* Check environment variables, first available OS variable will be
     assigned to the var *)
  let url := CheckEnvVars (Getenv w) ["JFROG_URL"; "ARTIFACTORY_URL"] "" in
  let accessToken :=
    CheckEnvVars (Getenv w) ["JFROG_ACCESS_TOKEN"; "ARTIFACTORY_ACCESS_TOKEN"] "" in
  (* Read configuration data into model *)
  let '(config, diags) := Config_Get req in
  Diagnostics_Append diags ;;
  failed <- Diagnostics_HasError ;;
  when failed return_ ;;
  let url :=
    if negb (ValueString (Url config) =? "") then ValueString (Url config) else url in
  when (url =? "")
    (Diagnostics_AddError "Missing URL Configuration"
       ("While configuring the provider, the url was not found in "
        ++ "the JFROG_URL/ARTIFACTORY_URL environment variable or provider "
        ++ "configuration block url attribute.") ;;
     return_) ;;
  '(restyClient, err) <- call (EvBuild url productId) (client_Build w url productId) ;;
  when (isErr err)
    (Diagnostics_AddError "Error creating Resty client" (Error err) ;;
     return_) ;;
  '(oidcAccessToken, err) <-
    util_OIDCTokenExchange w restyClient (ValueString (OIDCProviderName config)) ;;
  when (isErr err)
    (Diagnostics_AddError "Failed OIDC ID token exchange" (Error err) ;;
     return_) ;;
  (* use token from OIDC provider, which should take precedence over
     environment variable data, if found. *)
  let accessToken :=
    if negb (oidcAccessToken =? "") then oidcAccessToken else accessToken in
  (* Check configuration data, which should take precedence over
     environment variable data, if found. *)
  let accessToken :=
    if negb (ValueString (AccessToken config) =? "")
    then ValueString (AccessToken config) else accessToken in
  let apiKey := ValueString (ApiKey config) in
  when ((apiKey =? "") && (accessToken =? ""))
    (Diagnostics_AddError "Missing JFrog API key or Access Token"
       ("While configuring the provider, the API key or Access Token was not found in "
        ++ "the environment variables or provider configuration attributes.") ;;
     return_) ;;
  '(restyClient, err) <-
    call (EvAddAuth restyClient apiKey accessToken)
         (client_AddAuth w restyClient apiKey accessToken) ;;
  when (isErr err)
    (Diagnostics_AddError "Error adding Auth to Resty client" (Error err)) ;;
  when (IsNull (CheckLicense config) || ValueBool (CheckLicense config))
    (err <- call (EvCheckLicense restyClient ["Enterprise"; "Commercial"; "Edge"])
                 (util_CheckArtifactoryLicense w restyClient
                    ["Enterprise"; "Commercial"; "Edge"]) ;;
     when (isErr err)
       (Diagnostics_AddError "Error checking Artifactory license" (Error err) ;;
        return_)) ;;
  '(version, err) <-
    call (EvGetVersion restyClient) (util_GetArtifactoryVersion w restyClient) ;;
  when (isErr err)
    (Diagnostics_AddError "Error getting Artifactory version"
       ("The provider functionality might be affected by the absence of "
        ++ "Artifactory version in the context. " ++ Error err) ;;
     return_) ;;
  let featureUsage := "Terraform/" ++ TerraformVersion req in
  go_SendUsage restyClient productId featureUsage ;;
  let meta :=
    {| meta_Client := restyClient;
       ProductId := productId;
       ArtifactoryVersion := version |} in
  log (EvMetadata meta) ;;
  set_DataSourceData meta ;;
  set_ResourceData meta.

(** One run of [Configure] on the response [resp0] it is handed. *)
Definition run (w : World) (req : ConfigureRequest) (resp0 : ConfigureResponse)
  : Step unit * St :=
  Configure w req {| resp := resp0; trace := [] |}.

(** *** Reading a run *)

Definition isExchange (e : Event) : bool :=
  match e with EvExchange _ _ => true | _ => false end.
Definition isCheckLicense (e : Event) : bool :=
  match e with EvCheckLicense _ _ => true | _ => false end.
Definition isGetVersion (e : Event) : bool :=
  match e with EvGetVersion _ => true | _ => false end.
Definition isSendUsage (e : Event) : bool :=
  match e with EvSendUsage _ _ _ => true | _ => false end.
Definition isMetadata (e : Event) : bool :=
  match e with EvMetadata _ => true | _ => false end.

(** The response and the log a run ends with, and whether it left
    through an early [return]. *)
Definition final (r : Step unit * St) : ConfigureResponse := resp (snd r).
Definition calls (r : Step unit * St) : list Event := trace (snd r).
Definition returnedEarly (r : Step unit * St) : bool :=
  match fst r with Returned => true | Continue _ => false end.

(** The API key and access token handed to client.AddAuth, if it was
    called. *)
Fixpoint authArgs (t : list Event) : option (string * string) :=
  match t with
  | [] => None
  | EvAddAuth _ apiKey accessToken :: _ => Some (apiKey, accessToken)
  | _ :: rest => authArgs rest
  end.

(** The pure result of [util_OIDCTokenExchange]. *)
Definition oidc_result (w : World) (c : Client) (oidcProviderName : string)
  : string * error :=
  if oidcProviderName =? "" then ("", None) else idp_exchange w c oidcProviderName.

(** *** The values along a run

    What each step of [Configure] computes from the request and the
    collaborators, named so that statements about a run can refer to them.
    [run_summary] proves that they are the values of the code. *)

Section Along.

Variable w : World.
Variable req : ConfigureRequest.

Definition config : ArtifactoryProviderModel := fst (Config_Get req).

(** The diagnostics after the configuration was read. *)
Definition readDiags (resp0 : ConfigureResponse) : Diagnostics :=
  Append (Diagnostics_ resp0) (snd (Config_Get req)).

Definition resolvedUrl : string :=
  if ValueString (Url config) =? ""
  then CheckEnvVars (Getenv w) ["JFROG_URL"; "ARTIFACTORY_URL"] ""
  else ValueString (Url config).

Definition built : Client * error := client_Build w resolvedUrl productId.

Definition exchanged : string * error :=
  oidc_result w (fst built) (ValueString (OIDCProviderName config)).

Definition envToken : string :=
  CheckEnvVars (Getenv w) ["JFROG_ACCESS_TOKEN"; "ARTIFACTORY_ACCESS_TOKEN"] "".

Definition resolvedToken : string :=
  if ValueString (AccessToken config) =? ""
  then (if fst exchanged =? "" then envToken else fst exchanged)
  else ValueString (AccessToken config).

Definition apiKey : string := ValueString (ApiKey config).

Definition authenticated : Client * error :=
  client_AddAuth w (fst built) apiKey resolvedToken.

Definition licenseEnabled : bool :=
  IsNull (CheckLicense config) || ValueBool (CheckLicense config).

Definition tiers : list string := ["Enterprise"; "Commercial"; "Edge"].

Definition licenseChecked : error :=
  util_CheckArtifactoryLicense w (fst authenticated) tiers.

Definition versionLookup : string * error :=
  util_GetArtifactoryVersion w (fst authenticated).

Definition metadata : ProviderMetadata :=
  {| meta_Client := fst authenticated;
     ProductId := productId;
     ArtifactoryVersion := fst versionLookup |}.

(** The run gets past the token exchange: the configuration is read
    without error, there is a URL, the client is built and the exchange
    gives no error. *)
Definition reachesCredentials (resp0 : ConfigureResponse) : bool :=
  negb (HasError (readDiags resp0))
  && negb (resolvedUrl =? "")
  && negb (isErr (snd built))
  && negb (isErr (snd exchanged)).

(** ... and it has a credential, so that client.AddAuth is called. *)
Definition reachesAuth (resp0 : ConfigureResponse) : bool :=
  reachesCredentials resp0 && negb ((apiKey =? "") && (resolvedToken =? "")).

(** ... and the license check is off or passes, so that the version is
    looked up. *)
Definition reachesVersion (resp0 : ConfigureResponse) : bool :=
  reachesAuth resp0 && negb (licenseEnabled && isErr licenseChecked).

(** A run that left through [return]: the diagnostics it ends with and
    the calls it made; the two data fields are as they were. *)
Definition stopped (resp0 : ConfigureResponse) (diags : Diagnostics) (t : list Event)
  : Step unit * St :=
  (Returned,
   {| resp := {| Diagnostics_ := diags;
                 DataSourceData := DataSourceData resp0;
                 ResourceData := ResourceData resp0 |};
      trace := t |}).

Definition callsToExchange : list Event :=
  EvBuild resolvedUrl productId
  :: (if ValueString (OIDCProviderName config) =? "" then []
      else [EvExchange (fst built) (ValueString (OIDCProviderName config))]).

Definition callsToLicense : list Event :=
  (callsToExchange
   ++ EvAddAuth (fst built) apiKey resolvedToken
   :: (if licenseEnabled then [EvCheckLicense (fst authenticated) tiers] else []))%list.

Definition authDiags (resp0 : ConfigureResponse) : Diagnostics :=
  if isErr (snd authenticated)
  then AddError (readDiags resp0) "Error adding Auth to Resty client"
         (Error (snd authenticated))
  else readDiags resp0.

(** The outcome of a run, exit by exit in the order of the code. *)
Definition summary (resp0 : ConfigureResponse) : Step unit * St :=
  if HasError (readDiags resp0) then stopped resp0 (readDiags resp0) []
  else if resolvedUrl =? "" then
    stopped resp0
      (AddError (readDiags resp0) "Missing URL Configuration"
         "While configuring the provider, the url was not found in the JFROG_URL/ARTIFACTORY_URL environment variable or provider configuration block url attribute.")
      []
  else if isErr (snd built) then
    stopped resp0
      (AddError (readDiags resp0) "Error creating Resty client" (Error (snd built)))
      [EvBuild resolvedUrl productId]
  else if isErr (snd exchanged) then
    stopped resp0
      (AddError (readDiags resp0) "Failed OIDC ID token exchange"
         (Error (snd exchanged)))
      callsToExchange
  else if (apiKey =? "") && (resolvedToken =? "") then
    stopped resp0
      (AddError (readDiags resp0) "Missing JFrog API key or Access Token"
         "While configuring the provider, the API key or Access Token was not found in the environment variables or provider configuration attributes.")
      callsToExchange
  else if licenseEnabled && isErr licenseChecked then
    stopped resp0
      (AddError (authDiags resp0) "Error checking Artifactory license"
         (Error licenseChecked))
      callsToLicense
  else if isErr (snd versionLookup) then
    stopped resp0
      (AddError (authDiags resp0) "Error getting Artifactory version"
         ("The provider functionality might be affected by the absence of Artifactory version in the context. "
          ++ Error (snd versionLookup)))
      (callsToLicense ++ [EvGetVersion (fst authenticated)])%list
  else
    (Continue tt,
     {| resp := {| Diagnostics_ := authDiags resp0;
                   DataSourceData := Some metadata;
                   ResourceData := Some metadata |};
        trace := (callsToLicense
                  ++ [EvGetVersion (fst authenticated);
                      EvSendUsage (fst authenticated) productId
                        ("Terraform/" ++ TerraformVersion req);
                      EvMetadata metadata])%list |}).

End Along.

(** *** The rules in the words of the specification *)

(** The first non-empty string of a list, empty when there is none. *)
Fixpoint first_nonempty (l : list string) : string :=
  match l with
  | [] => ""
  | x :: rest => if x =? "" then first_nonempty rest else x
  end.

(** A later source overrides an earlier one when it is non-empty. *)
Definition override (earlier later : string) : string :=
  if later =? "" then earlier else later.

(** URL: the config value when non-empty, otherwise the first non-empty
    of JFROG_URL then ARTIFACTORY_URL. *)
Definition url_by_precedence (getenv : Environ) (config : ArtifactoryProviderModel)
  : string :=
  if ValueString (Url config) =? ""
  then first_nonempty [getenv "JFROG_URL"; getenv "ARTIFACTORY_URL"]
  else ValueString (Url config).

(** Access token: environment, then OIDC-exchanged token, then config
    token, later overriding earlier. *)
Definition token_by_override (getenv : Environ) (oidcToken : string)
    (config : ArtifactoryProviderModel) : string :=
  fold_left override
    [oidcToken; ValueString (AccessToken config)]
    (first_nonempty [getenv "JFROG_ACCESS_TOKEN"; getenv "ARTIFACTORY_ACCESS_TOKEN"]).

(** The four credential sources of a configuration, by name. *)
Inductive Source : Type :=
| OIDCToken
| ConfigAccessToken
| EnvAccessToken
| ConfigApiKey.

Definition sourceValue (getenv : Environ) (oidcToken : string)
    (config : ArtifactoryProviderModel) (s : Source) : string :=
  match s with
  | OIDCToken => oidcToken
  | ConfigAccessToken => ValueString (AccessToken config)
  | EnvAccessToken =>
      first_nonempty [getenv "JFROG_ACCESS_TOKEN"; getenv "ARTIFACTORY_ACCESS_TOKEN"]
  | ConfigApiKey => ValueString (ApiKey config)
  end.

Definition credentialOf (s : Source) (v : string) : ResolvedCredential :=
  match s with
  | ConfigApiKey => CredApiKey v
  | _ => CredAccessToken v
  end.

(** Highest wins: the credential of the first source of [order] whose
    value is non-empty. *)
Fixpoint by_precedence (order : list Source) (value : Source -> string)
  : option ResolvedCredential :=
  match order with
  | [] => None
  | s :: rest =>
      if value s =? "" then by_precedence rest value
      else Some (credentialOf s (value s))
  end.

(** The credential on the client after the attachment step, if it was
    reached. *)
Definition attachedCredential (t : list Event) : option ResolvedCredential :=
  match authArgs t with
  | Some (apiKey, accessToken) => Some (resolvedCredential apiKey accessToken)
  | None => None
  end.

(** The order of the credential sources as the data model words it, and
    the order in which [Configure] lets them win. *)
Definition precedence_as_stated : list Source :=
  [OIDCToken; ConfigAccessToken; EnvAccessToken; ConfigApiKey].

Definition precedence_of_code : list Source :=
  [ConfigAccessToken; OIDCToken; EnvAccessToken; ConfigApiKey].

(** The zero-valued response that the framework hands to [Configure]. *)
Definition emptyResponse : ConfigureResponse :=
  {| Diagnostics_ := []; DataSourceData := None; ResourceData := None |}.

(** *** Further readings of a run *)

(** The place of a call in the text of [Configure]. *)
Definition rank (e : Event) : nat :=
  match e with
  | EvBuild _ _ => 0
  | EvExchange _ _ => 1
  | EvAddAuth _ _ _ => 2
  | EvCheckLicense _ _ => 3
  | EvGetVersion _ => 4
  | EvSendUsage _ _ _ => 5
  | EvMetadata _ => 6
  end.

(** The summaries of the diagnostics that [Configure] adds itself. *)
Definition ownSummaries : list string :=
  ["Missing URL Configuration";
   "Error creating Resty client";
   "Failed OIDC ID token exchange";
   "Missing JFrog API key or Access Token";
   "Error adding Auth to Resty client";
   "Error checking Artifactory license";
   "Error getting Artifactory version"].

(** The same collaborators in another process environment. *)
Definition with_env (w : World) (env : Environ) : World :=
  {| Getenv := env;
     client_Build := client_Build w;
     idp_exchange := idp_exchange w;
     client_AddAuth := client_AddAuth w;
     util_CheckArtifactoryLicense := util_CheckArtifactoryLicense w;
     util_GetArtifactoryVersion := util_GetArtifactoryVersion w |}.

(** A provider block with every null or unknown string attribute made
    the known empty string, and an unknown [check_license] made false. *)
Definition knownString (v : types.String) : types.String :=
  StringValue (ValueString v).

Definition knownBool (v : types.Bool) : types.Bool :=
  match v with
  | BoolUnknown => BoolValue false
  | _ => v
  end.

Definition flatten (c : ArtifactoryProviderModel) : ArtifactoryProviderModel :=
  {| Url := knownString (Url c);
     AccessToken := knownString (AccessToken c);
     ApiKey := knownString (ApiKey c);
     OIDCProviderName := knownString (OIDCProviderName c);
     CheckLicense := knownBool (CheckLicense c) |}.

Definition flattened (req : ConfigureRequest) : ConfigureRequest :=
  {| TerraformVersion := TerraformVersion req;
     Config_Get := (flatten (fst (Config_Get req)), snd (Config_Get req)) |}.

End WithClient.

(** *** The provider schema *)

Inductive Validator : Type :=
| IsURLHttpOrHttps
| LengthAtLeast (n : nat).

Inductive AttributeKind : Type := StringAttribute | BoolAttribute.

Record Attribute : Type := {
  kind : AttributeKind;
  Description : string;
  DeprecationMessage : string;
  Optional : bool;
  Sensitive : bool;
  Validators : list Validator
}.

Definition newline : string := String.String (Ascii.ascii_of_nat 10) EmptyString.

(** [Schema]: the attributes of the provider block. *)
Definition Schema : list (string * Attribute) :=
  [ ("url",
     {| kind := StringAttribute;
        Description := "Artifactory URL.";
        DeprecationMessage := "";
        Optional := true;
        Sensitive := false;
        Validators := [IsURLHttpOrHttps] |});
    ("access_token",
     {| kind := StringAttribute;
        Description := "This is a access token that can be given to you by your admin under `User Management -> Access Tokens`. If not set, the 'api_key' attribute value will be used.";
        DeprecationMessage := "";
        Optional := true;
        Sensitive := true;
        Validators := [LengthAtLeast 1] |});
    ("api_key",
     {| kind := StringAttribute;
        Description := "API key. If `access_token` attribute, `JFROG_ACCESS_TOKEN` or `ARTIFACTORY_ACCESS_TOKEN` environment variable is set, the provider will ignore this attribute.";
        DeprecationMessage :=
          "An upcoming version will support the option to block the usage/creation of API Keys (for admins to set on their platform)."
          ++ newline
          ++ "In a future version (scheduled for end of Q3, 2023), the option to disable the usage/creation of API Keys will be available and set to disabled by default. Admins will be able to enable the usage/creation of API Keys."
          ++ newline
          ++ "By end of Q4 2024, API Keys will be deprecated all together and the option to use them will no longer be available. See [JFrog API deprecation process](https://jfrog.com/help/r/jfrog-platform-administration-documentation/jfrog-api-key-deprecation-process) for more details.";
        Optional := true;
        Sensitive := true;
        Validators := [] |});
    ("oidc_provider_name",
     {| kind := StringAttribute;
        Description := "OIDC provider name. See [Configure an OIDC Integration](https://jfrog.com/help/r/jfrog-platform-administration-documentation/configure-an-oidc-integration) for more details.";
        DeprecationMessage := "";
        Optional := true;
        Sensitive := false;
        Validators := [LengthAtLeast 1] |});
    ("check_license",
     {| kind := BoolAttribute;
        Description := "Toggle for pre-flight checking of Artifactory Pro and Enterprise license. Default to `true`.";
        DeprecationMessage := "";
        Optional := true;
        Sensitive := false;
        Validators := [] |}) ].

(** The fields of ArtifactoryProviderModel under their [tfsdk] tags. *)
Inductive ModelField : Type :=
| StringField (get : ArtifactoryProviderModel -> types.String)
| BoolField (get : ArtifactoryProviderModel -> types.Bool).

Definition modelFields : list (string * ModelField) :=
  [ ("url", StringField Url);
    ("access_token", StringField AccessToken);
    ("api_key", StringField ApiKey);
    ("oidc_provider_name", StringField OIDCProviderName);
    ("check_license", BoolField CheckLicense) ].

Definition fieldKind (f : ModelField) : AttributeKind :=
  match f with
  | StringField _ => StringAttribute
  | BoolField _ => BoolAttribute
  end.

(** *** Concrete collaborators

    A family of worlds in which a client is the URL it was built for,
    followed by a mark once credentials were attached, and every
    collaborator answers as the [Setup] says. *)

Module Demo.

Record Setup : Type := {
  environment : list (string * string);
  buildError : error;
  exchange : string * error;
  authError : error;
  license : error;
  version : string * error
}.

Fixpoint lookup (env : list (string * string)) (k : string) : string :=
  match env with
  | [] => ""
  | (k', v) :: rest => if k' =? k then v else lookup rest k
  end.

Definition world (s : Setup) : @World string :=
  {| Getenv := lookup (environment s);
     client_Build := fun url _ => (url, buildError s);
     idp_exchange := fun _ _ => exchange s;
     client_AddAuth := fun c _ _ => (c ++ "#auth", authError s);
     util_CheckArtifactoryLicense := fun _ _ => license s;
     util_GetArtifactoryVersion := fun _ => version s |}.

Definition request (m : ArtifactoryProviderModel) : ConfigureRequest :=
  {| TerraformVersion := "1.5.7"; Config_Get := (m, []) |}.

Definition pid : string := "terraform-provider-artifactory/test".

(** Everything answers well: licensed server, version 7.77.3. *)
Definition healthy : Setup :=
  {| environment := [];
     buildError := None;
     exchange := ("", None);
     authError := None;
     license := None;
     version := ("7.77.3", None) |}.

(** The scenario of the specification: URL and API key in the provider
    block, nothing else. *)
Definition apiKeyOnly : ArtifactoryProviderModel :=
  {| Url := StringValue "https://x.example/artifactory";
     AccessToken := StringNull;
     ApiKey := StringValue "k1";
     OIDCProviderName := StringNull;
     CheckLicense := BoolNull |}.

(** An empty provider block. *)
Definition blank : ArtifactoryProviderModel :=
  {| Url := StringNull;
     AccessToken := StringNull;
     ApiKey := StringNull;
     OIDCProviderName := StringNull;
     CheckLicense := BoolNull |}.

(** URL, access token and OIDC provider name in the provider block. *)
Definition tokenAndOidc : ArtifactoryProviderModel :=
  {| Url := StringValue "https://x.example/artifactory";
     AccessToken := StringValue "config-token";
     ApiKey := StringNull;
     OIDCProviderName := StringValue "my-idp";
     CheckLicense := BoolNull |}.

(** The identity provider hands out a token. *)
Definition withOidc : Setup :=
  {| environment := [("ARTIFACTORY_ACCESS_TOKEN", "env-token")];
     buildError := None;
     exchange := ("oidc-token", None);
     authError := None;
     license := None;
     version := ("7.77.3", None) |}.

(** The identity provider refuses the exchange. *)
Definition oidcDown : Setup :=
  {| environment := [("ARTIFACTORY_ACCESS_TOKEN", "env-token")];
     buildError := None;
     exchange := ("", Some "401 Unauthorized");
     authError := None;
     license := None;
     version := ("7.77.3", None) |}.

(** The server does not answer the version request. *)
Definition versionDown : Setup :=
  {| environment := [];
     buildError := None;
     exchange := ("", None);
     authError := None;
     license := None;
     version := ("", Some "connection refused") |}.

(** The attachment step reports an error. *)
Definition authFails : Setup :=
  {| environment := [];
     buildError := None;
     exchange := ("", None);
     authError := Some "no authentication details supplied";
     license := None;
     version := ("7.77.3", None) |}.


(** The server has no accepted license. *)
Definition unlicensed : Setup :=
  {| environment := [];
     buildError := None;
     exchange := ("", None);
     authError := None;
     license := Some "Artifactory requires Pro or Enterprise or Edge license";
     version := ("7.77.3", None) |}.

(** The provider block of the scenario with the license check off. *)
Definition licenseOff : ArtifactoryProviderModel :=
  {| Url := StringValue "https://x.example/artifactory";
     AccessToken := StringNull;
     ApiKey := StringValue "k1";
     OIDCProviderName := StringNull;
     CheckLicense := BoolValue false |}.

(** Only the second URL variable is set. *)
Definition urlFromEnv : Setup :=
  {| environment := [("ARTIFACTORY_URL", "https://env.example/artifactory")];
     buildError := None;
     exchange := ("", None);
     authError := None;
     license := None;
     version := ("7.77.3", None) |}.


End Demo.

End Provider.

(** ** The local Gradle repository resource (package artifactory) *)

Module Artifactory.

(** An attribute of a resource schema: its type, whether it is optional
    and its default; the descriptions are left out. *)
Inductive ValueType : Type := TypeString | TypeInt | TypeBool.

Inductive DefaultValue : Type :=
| DefaultString (s : string)
| DefaultBool (b : bool).

Record SchemaAttribute : Type := {
  Type_ : ValueType;
  Optional : bool;
  Default : option DefaultValue
}.

Definition SchemaMap : Type := list (string * SchemaAttribute).

Section LocalGradle.

(** schema.ResourceData of the plugin SDK, and what the package declares
    in its other files: the fields of LocalRepositoryBaseParams other
    than the two named here, with their zero value, the base schema and
    the helpers. *)
Variable SchemaResourceData : Type.
Variable BaseOther : Type.
Variable Resource : Type.
Variable Packer : Type.

Record LocalRepositoryBaseParams : Type := {
  PackageType : string;
  Rclass : string;
  baseOther : BaseOther
}.

Record GradleLocalRepositoryParams : Type := {
  Base : LocalRepositoryBaseParams;
  ChecksumPolicyType : string;
  SnapshotVersionBehavior : string;
  MaxUniqueSnapshots : Z;
  HandleReleases : bool;
  HandleSnapshots : bool;
  SuppressPomConsistencyChecks : bool
}.

Variable zeroOther : BaseOther.
Variable baseLocalRepoSchema : SchemaMap.
Variable mergeSchema : SchemaMap -> SchemaMap -> SchemaMap.
Variable universalPack : Packer.
Variable unpackBaseLocalRepo : SchemaResourceData -> string -> LocalRepositoryBaseParams.
Variable getString : SchemaResourceData -> string -> bool -> string.
Variable getInt : SchemaResourceData -> string -> bool -> Z.
Variable getBool : SchemaResourceData -> string -> bool -> bool.
Variable Id : GradleLocalRepositoryParams -> string.
Variable mkResourceSchema :
  SchemaMap -> Packer ->
  (SchemaResourceData -> GradleLocalRepositoryParams * string * error) ->
  (unit -> GradleLocalRepositoryParams) -> Resource.

Definition gradleLocalSchema : SchemaMap :=
  mergeSchema baseLocalRepoSchema
    [ ("checksum_policy_type",
       {| Type_ := TypeString; Optional := true;
          Default := Some (DefaultString "client-checksums") |});
      ("snapshot_version_behavior",
       {| Type_ := TypeString; Optional := true;
          Default := Some (DefaultString "unique") |});
      ("max_unique_snapshots",
       {| Type_ := TypeInt; Optional := true; Default := None |});
      ("handle_releases",
       {| Type_ := TypeBool; Optional := true; Default := Some (DefaultBool true) |});
      ("handle_snapshots",
       {| Type_ := TypeBool; Optional := true; Default := Some (DefaultBool true) |});
      ("suppress_pom_consistency_checks",
       {| Type_ := TypeBool; Optional := true; Default := Some (DefaultBool true) |}) ].

Definition unPackLocalGradleRepository (data : SchemaResourceData)
  : GradleLocalRepositoryParams * string * error :=
  let d := data in
  let repo :=
    {| Base := unpackBaseLocalRepo data "gradle";
       ChecksumPolicyType := getString d "checksum_policy_type" false;
       SnapshotVersionBehavior := getString d "snapshot_version_behavior" false;
       MaxUniqueSnapshots := getInt d "max_unique_snapshots" false;
       HandleReleases := getBool d "handle_releases" false;
       HandleSnapshots := getBool d "handle_snapshots" false;
       SuppressPomConsistencyChecks := getBool d "suppress_pom_consistency_checks" false |} in
  (repo, Id repo, None).

Definition resourceArtifactoryLocalGradleRepository : Resource :=
  mkResourceSchema gradleLocalSchema universalPack unPackLocalGradleRepository
    (fun _ =>
       {| Base := {| PackageType := "gradle";
                     Rclass := "local";
                     baseOther := zeroOther |};
          ChecksumPolicyType := "";
          SnapshotVersionBehavior := "";
          MaxUniqueSnapshots := 0%Z;
          HandleReleases := false;
          HandleSnapshots := false;
          SuppressPomConsistencyChecks := false |}).

(** The fields of GradleLocalRepositoryParams under their [hcl] tags. *)
Inductive Field : Type :=
| StringField (get : GradleLocalRepositoryParams -> string)
| IntField (get : GradleLocalRepositoryParams -> Z)
| BoolField (get : GradleLocalRepositoryParams -> bool).

Definition gradleFields : list (string * Field) :=
  [ ("checksum_policy_type", StringField ChecksumPolicyType);
    ("snapshot_version_behavior", StringField SnapshotVersionBehavior);
    ("max_unique_snapshots", IntField MaxUniqueSnapshots);
    ("handle_releases", BoolField HandleReleases);
    ("handle_snapshots", BoolField HandleSnapshots);
    ("suppress_pom_consistency_checks", BoolField SuppressPomConsistencyChecks) ].

Definition fieldType (f : Field) : ValueType :=
  match f with
  | StringField _ => TypeString
  | IntField _ => TypeInt
  | BoolField _ => TypeBool
  end.

End LocalGradle.

Arguments PackageType {BaseOther} _.
Arguments Rclass {BaseOther} _.
Arguments Base {BaseOther} _.
Arguments StringField {BaseOther} get.
Arguments IntField {BaseOther} get.
Arguments BoolField {BaseOther} get.
Arguments gradleFields {BaseOther}.
Arguments fieldType {BaseOther} f.

End Artifactory.

(** * Properties *)

Import Diag types Provider.

(** ** Facts about the diagnostics collection *)

Lemma severity_eqb_eq (a b : Severity) : severity_eqb a b = true <-> a = b.
Proof. destruct a, b; simpl; split; congruence. Qed.

Lemma Equal_eq (a b : Diagnostic) : Equal a b = true <-> a = b.
Proof.
  destruct a as [sa ma da], b as [sb mb db]; unfold Equal; simpl.
  rewrite !andb_true_iff, severity_eqb_eq, !String.eqb_eq.
  split.
  - intros [[-> ->] ->]; reflexivity.
  - intros [= -> -> ->]; auto.
Qed.

Lemma Contains_In (diags : Diagnostics) (d : Diagnostic) :
  Contains diags d = true <-> In d diags.
Proof.
  unfold Contains; rewrite existsb_exists; split.
  - intros (x & Hx & E); apply Equal_eq in E; subst; assumption.
  - intros H; exists d; split; [assumption | apply Equal_eq; reflexivity].
Qed.

Lemma Append_keeps (ins : list Diagnostic) (diags : Diagnostics) (d : Diagnostic) :
  In d diags -> In d (Append diags ins).
Proof.
  revert diags; induction ins as [|x ins IH]; intros diags H; simpl.
  - assumption.
  - apply IH; destruct (Contains diags x); [assumption | apply in_or_app; auto].
Qed.

Lemma AddError_In (diags : Diagnostics) (summary detail : string) :
  In (NewErrorDiagnostic summary detail) (AddError diags summary detail).
Proof.
  unfold AddError; simpl.
  destruct (Contains diags (NewErrorDiagnostic summary detail)) eqn:E.
  - apply Contains_In; assumption.
  - apply in_or_app; right; left; reflexivity.
Qed.

Lemma HasError_In (diags : Diagnostics) (d : Diagnostic) :
  In d diags -> severity d = SeverityError -> HasError diags = true.
Proof.
  intros H E; unfold HasError; apply existsb_exists.
  exists d; split; [assumption | unfold isError; rewrite E; reflexivity].
Qed.

Lemma HasError_AddError (diags : Diagnostics) (summary detail : string) :
  HasError (AddError diags summary detail) = true.
Proof.
  apply HasError_In with (d := NewErrorDiagnostic summary detail);
    [apply AddError_In | reflexivity].
Qed.

(** [AddError] adds nothing but the one error diagnostic. *)
Lemma AddError_only (diags : Diagnostics) (summary detail : string) (d : Diagnostic) :
  In d (AddError diags summary detail) ->
  In d diags \/ d = NewErrorDiagnostic summary detail.
Proof.
  unfold AddError; simpl.
  destruct (Contains diags (NewErrorDiagnostic summary detail)); intros H.
  - left; assumption.
  - apply in_app_or in H; destruct H as [H | [H | []]]; auto.
Qed.


(** ** Running [Configure] *)

Ltac unfold_run :=
  cbv [run Configure util_OIDCTokenExchange go_SendUsage
       bind ret return_ when log call modify_resp
       Diagnostics_Append Diagnostics_AddError Diagnostics_HasError
       set_DataSourceData set_ResourceData].

Ltac reduce :=
  cbn [isErr Error fst snd resp trace Diagnostics_ DataSourceData ResourceData app].

Lemma if_negb {A} (b : bool) (x y : A) :
  (if negb b then x else y) = (if b then y else x).
Proof. destruct b; reflexivity. Qed.

Section ConfigureFacts.

Context {Client : Type}.
Variable productId : string.
Variable w : @World Client.
Variable req : ConfigureRequest.
Variable resp0 : @ConfigureResponse Client.

(** Every run of [Configure] ends as [summary] says. *)
Lemma run_summary : run productId w req resp0 = summary productId w req resp0.
Proof.
  unfold summary, stopped, authDiags, callsToLicense, callsToExchange, metadata,
    versionLookup, licenseChecked, authenticated, tiers, licenseEnabled, apiKey,
    resolvedToken, envToken, exchanged, oidc_result, built, resolvedUrl, readDiags,
    config.
  unfold_run.
  destruct resp0 as [d0 ds0 rs0].
  destruct (Config_Get req) as [cfg diags]; reduce.
  destruct (HasError (Append d0 diags)); [reflexivity|].
  rewrite !if_negb.
  generalize (if ValueString (Url cfg) =? ""
              then CheckEnvVars (Getenv w) ["JFROG_URL"; "ARTIFACTORY_URL"] ""
              else ValueString (Url cfg)); intros url.
  destruct (url =? ""); [reflexivity|]; reduce.
  destruct (client_Build w url productId) as [c1 [e1|]]; [reflexivity|]; reduce.
  generalize (CheckEnvVars (Getenv w)
                ["JFROG_ACCESS_TOKEN"; "ARTIFACTORY_ACCESS_TOKEN"] ""); intros envTok.
  destruct (ValueString (OIDCProviderName cfg) =? ""); reduce.
  2: destruct (idp_exchange w c1 (ValueString (OIDCProviderName cfg))) as [tok [e2|]];
     [reflexivity|]; reduce.
  all: rewrite ?if_negb.
  all: match goal with
       | |- context [client_AddAuth _ _ _ ?t] => generalize t; intros token
       end.
  all: destruct (ValueString (ApiKey cfg) =? ""), (token =? "");
       cbn [andb]; reduce; try reflexivity.
  all: match goal with
       | |- context [client_AddAuth ?a ?b ?c ?d] =>
           destruct (client_AddAuth a b c d) as [c2 e3]
       end;
       destruct (IsNull (CheckLicense cfg) || ValueBool (CheckLicense cfg));
       destruct e3; cbn [andb]; reduce.
  all: try (match goal with
            | |- context [util_CheckArtifactoryLicense ?a ?b ?c] =>
                destruct (util_CheckArtifactoryLicense a b c)
            end; reduce; [reflexivity|]).
  all: match goal with
       | |- context [util_GetArtifactoryVersion ?a ?b] =>
           destruct (util_GetArtifactoryVersion a b) as [v [e5|]]
       end; reduce; reflexivity.
Qed.

(** ** How the values along a run read in the words of the specification *)

Lemma CheckEnvVars_first_nonempty (vars : list string) :
  CheckEnvVars (Getenv w) vars "" = first_nonempty (map (Getenv w) vars).
Proof.
  induction vars as [|k vars IH]; simpl; [reflexivity|].
  rewrite IH; reflexivity.
Qed.

Lemma resolvedUrl_precedence :
  resolvedUrl w req = url_by_precedence (Getenv w) (config req).
Proof.
  unfold resolvedUrl, url_by_precedence.
  rewrite CheckEnvVars_first_nonempty; reflexivity.
Qed.

Lemma resolvedToken_override :
  resolvedToken productId w req
  = token_by_override (Getenv w) (fst (exchanged productId w req)) (config req).
Proof.
  unfold resolvedToken, token_by_override, envToken, override.
  rewrite CheckEnvVars_first_nonempty; reflexivity.
Qed.

(** ** URL *)

(** C6: once the configuration is read without error, the URL handed to
    client.Build is the config [url] when it is non-empty, otherwise the
    first non-empty of JFROG_URL then ARTIFACTORY_URL, and building the
    client is the first thing the run does; when all three are empty the
    run stops with the error "Missing URL Configuration", having called
    no collaborator and released nothing. *)
Theorem url_resolution :
  HasError (readDiags req resp0) = false ->
  let url := url_by_precedence (Getenv w) (config req) in
  let r := run productId w req resp0 in
  (url <> "" -> exists rest, calls r = EvBuild url productId :: rest) /\
  (url = "" ->
   returnedEarly r = true /\
   calls r = [] /\
   HasError (Diagnostics_ (final r)) = true /\
   In (NewErrorDiagnostic "Missing URL Configuration"
         "While configuring the provider, the url was not found in the JFROG_URL/ARTIFACTORY_URL environment variable or provider configuration block url attribute.")
      (Diagnostics_ (final r)) /\
   DataSourceData (final r) = DataSourceData resp0 /\
   ResourceData (final r) = ResourceData resp0).
Proof.
  intros Hread url r; subst url r.
  rewrite run_summary, <- resolvedUrl_precedence.
  unfold summary, stopped, calls, final; rewrite Hread.
  split; intros Hurl.
  - apply String.eqb_neq in Hurl; rewrite Hurl.
    repeat match goal with
           | |- context [if ?b then _ else _] => destruct b
           end;
      cbn [snd trace callsToLicense callsToExchange app]; eexists; reflexivity.
  - rewrite Hurl; cbn [String.eqb fst snd resp trace returnedEarly
                        Diagnostics_ DataSourceData ResourceData].
    repeat split; [apply HasError_AddError | apply AddError_In].
Qed.

(** ** Credentials *)

Ltac split_reach H :=
  unfold reachesVersion, reachesAuth, reachesCredentials in H;
  repeat (let H' := fresh "Hreach" in
          apply andb_true_iff in H; destruct H as [H H']);
  repeat match goal with
         | X : negb _ = true |- _ => apply negb_true_iff in X
         end.

Lemma authArgs_callsToLicense (rest : list Event) :
  authArgs
    (callsToExchange productId w req
     ++ EvAddAuth (fst (built productId w req)) (apiKey req)
          (resolvedToken productId w req) :: rest)%list
  = Some (apiKey req, resolvedToken productId w req).
Proof.
  unfold callsToExchange.
  destruct (ValueString (OIDCProviderName (config req)) =? ""); reflexivity.
Qed.

Lemma authArgs_callsToExchange : authArgs (callsToExchange productId w req) = None.
Proof.
  unfold callsToExchange.
  destruct (ValueString (OIDCProviderName (config req)) =? ""); reflexivity.
Qed.

Lemma authDiags_from (d : Diagnostic) :
  In d (authDiags productId w req resp0) ->
  In d (readDiags req resp0)
  \/ d = NewErrorDiagnostic "Error adding Auth to Resty client"
           (Error (snd (authenticated productId w req))).
Proof.
  unfold authDiags.
  destruct (isErr (snd (authenticated productId w req))); intros H.
  - apply AddError_only in H; assumption.
  - left; assumption.
Qed.

(** C7: when the run gets to the credentials and the environment token,
    the exchanged token, the config token and the config API key are all
    empty, it stops with the error "Missing JFrog API key or Access
    Token", without calling client.AddAuth and releasing nothing; when
    one of them is non-empty the check passes: client.AddAuth is called
    and that error is not added. *)
Theorem missing_credentials :
  reachesCredentials productId w req resp0 = true ->
  let r := run productId w req resp0 in
  let missing :=
    NewErrorDiagnostic "Missing JFrog API key or Access Token"
      "While configuring the provider, the API key or Access Token was not found in the environment variables or provider configuration attributes." in
  (envToken w = "" ->
   fst (exchanged productId w req) = "" ->
   ValueString (AccessToken (config req)) = "" ->
   ValueString (ApiKey (config req)) = "" ->
   returnedEarly r = true /\
   HasError (Diagnostics_ (final r)) = true /\
   In missing (Diagnostics_ (final r)) /\
   authArgs (calls r) = None /\
   DataSourceData (final r) = DataSourceData resp0 /\
   ResourceData (final r) = ResourceData resp0) /\
  (envToken w <> ""
   \/ fst (exchanged productId w req) <> ""
   \/ ValueString (AccessToken (config req)) <> ""
   \/ ValueString (ApiKey (config req)) <> "" ->
   (exists c token,
      authArgs (calls r) = Some (ValueString (ApiKey (config req)), token)
      /\ In (EvAddAuth c (ValueString (ApiKey (config req))) token) (calls r)) /\
   (In missing (Diagnostics_ (final r)) -> In missing (readDiags req resp0))).
Proof.
  intros Hreach r missing; subst r missing.
  split_reach Hreach.
  rewrite run_summary; unfold summary, stopped, calls, final.
  rewrite Hreach, Hreach2, Hreach1, Hreach0.
  split.
  - intros He Ho Hc Hk.
    unfold apiKey, resolvedToken; rewrite Hc, Ho, He, Hk.
    cbn [String.eqb andb fst snd resp trace returnedEarly
         Diagnostics_ DataSourceData ResourceData].
    repeat split;
      [apply HasError_AddError | apply AddError_In | apply authArgs_callsToExchange].
  - intros Hsome.
    assert (Hcred : (apiKey req =? "") && (resolvedToken productId w req =? "") = false).
    { apply andb_false_iff.
      unfold apiKey, resolvedToken.
      destruct (ValueString (ApiKey (config req)) =? "") eqn:Ek; [right | left; reflexivity].
      apply String.eqb_eq in Ek.
      destruct (ValueString (AccessToken (config req)) =? "") eqn:Ec;
        [apply String.eqb_eq in Ec | assumption].
      destruct (fst (exchanged productId w req) =? "") eqn:Eo;
        [apply String.eqb_eq in Eo | assumption].
      apply String.eqb_neq; tauto. }
    rewrite Hcred.
    split.
    + exists (fst (built productId w req)), (resolvedToken productId w req).
      repeat match goal with
             | |- context [if ?b then _ else _] => destruct b
             end;
        unfold callsToLicense; cbn [snd trace];
        rewrite <- ?app_assoc; cbn [app];
        (split; [apply authArgs_callsToLicense
                | apply in_or_app; right; left; reflexivity]).
    + intros Hin.
      assert (Hauth : In (NewErrorDiagnostic "Missing JFrog API key or Access Token"
                            "While configuring the provider, the API key or Access Token was not found in the environment variables or provider configuration attributes.")
                         (authDiags productId w req resp0) ->
                      In (NewErrorDiagnostic "Missing JFrog API key or Access Token"
                            "While configuring the provider, the API key or Access Token was not found in the environment variables or provider configuration attributes.")
                         (readDiags req resp0)).
      { intros H; apply authDiags_from in H; destruct H as [H | H];
          [assumption | discriminate H]. }
      repeat match type of Hin with
             | context [if ?b then _ else _] => destruct b
             end;
        cbn [snd resp Diagnostics_] in Hin;
        try (apply AddError_only in Hin; destruct Hin as [Hin | Hin];
             [| discriminate Hin]);
        apply Hauth; assumption.
Qed.

(** What client.AddAuth is handed when the run gets to the credentials. *)
Lemma authArgs_run :
  reachesCredentials productId w req resp0 = true ->
  authArgs (calls (run productId w req resp0))
  = if (apiKey req =? "") && (resolvedToken productId w req =? "") then None
    else Some (apiKey req, resolvedToken productId w req).
Proof.
  intros Hreach; split_reach Hreach.
  rewrite run_summary; unfold summary, stopped, calls.
  rewrite Hreach, Hreach2, Hreach1, Hreach0.
  destruct ((apiKey req =? "") && (resolvedToken productId w req =? ""));
    [apply authArgs_callsToExchange|].
  repeat match goal with
         | |- context [if ?b then _ else _] => destruct b
         end;
    unfold callsToLicense; cbn [snd trace];
    rewrite <- ?app_assoc; cbn [app]; apply authArgs_callsToLicense.
Qed.

(** A run that gets to the version lookup and finds no error there
    completes and releases the metadata. *)
Lemma run_completes :
  reachesVersion productId w req resp0 = true ->
  snd (versionLookup productId w req) = None ->
  let r := run productId w req resp0 in
  returnedEarly r = false /\
  Diagnostics_ (final r) = authDiags productId w req resp0 /\
  DataSourceData (final r) = Some (metadata productId w req) /\
  ResourceData (final r) = Some (metadata productId w req) /\
  calls r
  = (callsToLicense productId w req
     ++ [EvGetVersion (fst (authenticated productId w req));
         EvSendUsage (fst (authenticated productId w req)) productId
           ("Terraform/" ++ TerraformVersion req);
         EvMetadata (metadata productId w req)])%list.
Proof.
  intros Hreach Hver r; subst r; split_reach Hreach.
  rewrite run_summary; unfold summary, stopped, calls, final.
  rewrite Hreach, Hreach3, Hreach2, Hreach1, Hreach0, Hreach4, Hver.
  cbn [isErr fst snd resp trace returnedEarly Diagnostics_ DataSourceData ResourceData].
  repeat split.
Qed.

(** C2: when the run gets to the credentials, the access token it hands
    to client.AddAuth, next to the config API key, is the result of the
    override chain: the first non-empty of JFROG_ACCESS_TOKEN and
    ARTIFACTORY_ACCESS_TOKEN, overridden by a non-empty exchanged token,
    overridden by a non-empty config token.  A non-empty access token is
    the credential attached whatever the API key; with no token and an
    API key, the key is the credential and the run succeeds when
    attaching it, the license check and the version lookup give no
    error. *)
Theorem access_token_override_chain :
  reachesCredentials productId w req resp0 = true ->
  let r := run productId w req resp0 in
  let token :=
    token_by_override (Getenv w) (fst (exchanged productId w req)) (config req) in
  let key := ValueString (ApiKey (config req)) in
  (token <> "" \/ key <> "" -> authArgs (calls r) = Some (key, token)) /\
  (token <> "" -> attachedCredential (calls r) = Some (CredAccessToken token)) /\
  (token = "" -> key <> "" ->
   attachedCredential (calls r) = Some (CredApiKey key) /\
   (snd (authenticated productId w req) = None ->
    (licenseEnabled req = true -> licenseChecked productId w req = None) ->
    snd (versionLookup productId w req) = None ->
    returnedEarly r = false /\
    HasError (Diagnostics_ (final r)) = false /\
    Diagnostics_ (final r) = readDiags req resp0 /\
    DataSourceData (final r) = Some (metadata productId w req) /\
    ResourceData (final r) = Some (metadata productId w req))).
Proof.
  intros Hreach r token key; subst r token key.
  rewrite <- resolvedToken_override.
  fold (apiKey req).
  pose proof (authArgs_run Hreach) as Hargs.
  unfold attachedCredential; rewrite Hargs.
  split; [|split].
  - intros [H | H]; apply String.eqb_neq in H; rewrite H;
      rewrite ?andb_false_r; reflexivity.
  - intros H; apply String.eqb_neq in H; rewrite H, andb_false_r.
    unfold resolvedCredential; rewrite H; reflexivity.
  - intros Ht Hk; apply String.eqb_neq in Hk; rewrite Hk, Ht.
    cbn [andb String.eqb]; split; [reflexivity|].
    intros Hauth Hlic Hver.
    assert (Hv : reachesVersion productId w req resp0 = true).
    { unfold reachesVersion, reachesAuth.
      rewrite Hreach, Hk; cbn [andb negb].
      destruct (licenseEnabled req); [rewrite Hlic by reflexivity|]; reflexivity. }
    destruct (run_completes Hv Hver) as (Hr & Hd & Hds & Hrs & _).
    rewrite Hr, Hd, Hds, Hrs.
    unfold authDiags; rewrite Hauth; cbn [isErr].
    split_reach Hreach.
    repeat split; assumption.
Qed.

(** C3, as the code has it: when the run gets to the credentials, the
    credential attached is that of the first non-empty source in the
    order config access token, exchanged OIDC token, environment access
    token, config API key; none is attached when all four are empty. *)
Theorem credential_precedence :
  reachesCredentials productId w req resp0 = true ->
  attachedCredential (calls (run productId w req resp0))
  = by_precedence precedence_of_code
      (sourceValue (Getenv w) (fst (exchanged productId w req)) (config req)).
Proof.
  intros Hreach.
  unfold attachedCredential; rewrite (authArgs_run Hreach).
  unfold apiKey, resolvedToken, envToken, resolvedCredential, precedence_of_code.
  rewrite CheckEnvVars_first_nonempty.
  cbn [by_precedence sourceValue credentialOf map].
  fold (config req).
  destruct (ValueString (AccessToken (config req)) =? "") eqn:Ec.
  - destruct (fst (exchanged productId w req) =? "") eqn:Eo.
    + destruct (first_nonempty [Getenv w "JFROG_ACCESS_TOKEN";
                                Getenv w "ARTIFACTORY_ACCESS_TOKEN"] =? "") eqn:Ee.
      * destruct (ValueString (ApiKey (config req)) =? "");
          cbn [andb]; rewrite ?Ee; reflexivity.
      * rewrite andb_false_r, Ee; reflexivity.
    + cbv iota; rewrite Eo, andb_false_r, Eo; reflexivity.
  - cbv iota; rewrite Ec, andb_false_r, Ec; reflexivity.
Qed.

(** ** Metadata *)

Ltac open_summary :=
  rewrite run_summary; unfold summary, stopped, calls, final.

Ltac split_ifs :=
  repeat match goal with
         | |- context [if ?b then _ else _] => destruct b eqn:?
         end.

Lemma no_metadata_before_version :
  filter isMetadata (callsToLicense productId w req) = [].
Proof. unfold callsToLicense, callsToExchange; split_ifs; reflexivity. Qed.

(** C9: a run builds the metadata at most once.  A run that completes
    releases it: DataSourceData and ResourceData both hold the one value
    made of the client returned by client.AddAuth, [productId] and the
    version returned by util.GetArtifactoryVersion.  A run that returns
    early has an error diagnostic, builds no metadata and leaves both
    fields as they were. *)
Theorem metadata_release :
  let r := run productId w req resp0 in
  let restyClient :=
    fst (client_AddAuth w (fst (built productId w req)) (apiKey req)
           (resolvedToken productId w req)) in
  let meta :=
    {| meta_Client := restyClient;
       ProductId := productId;
       ArtifactoryVersion := fst (util_GetArtifactoryVersion w restyClient) |} in
  length (filter isMetadata (calls r)) <= 1 /\
  (returnedEarly r = false ->
   filter isMetadata (calls r) = [EvMetadata meta] /\
   DataSourceData (final r) = Some meta /\
   ResourceData (final r) = Some meta) /\
  (returnedEarly r = true ->
   HasError (Diagnostics_ (final r)) = true /\
   filter isMetadata (calls r) = [] /\
   DataSourceData (final r) = DataSourceData resp0 /\
   ResourceData (final r) = ResourceData resp0).
Proof.
  intros r restyClient meta; subst r restyClient meta.
  open_summary.
  fold (authenticated productId w req).
  fold (versionLookup productId w req).
  fold (metadata productId w req).
  assert (Hexch : filter isMetadata (callsToExchange productId w req) = []).
  { unfold callsToExchange; split_ifs; reflexivity. }
  pose proof no_metadata_before_version as Hlic.
  destruct (HasError (readDiags req resp0)) eqn:Hread;
    [|destruct (resolvedUrl w req =? "");
      [|destruct (isErr (snd (built productId w req)));
        [|destruct (isErr (snd (exchanged productId w req)));
          [|destruct ((apiKey req =? "") && (resolvedToken productId w req =? ""));
            [|destruct (licenseEnabled req && isErr (licenseChecked productId w req));
              [|destruct (isErr (snd (versionLookup productId w req)))]]]]]];
    cbn [fst snd resp trace returnedEarly Diagnostics_ DataSourceData ResourceData];
    rewrite ?filter_app, ?Hexch, ?Hlic;
    cbn [filter isMetadata app length];
    (split; [auto|]); (split; [intros E; try discriminate E | intros E; try discriminate E]);
    repeat split; auto using HasError_AddError.
Qed.

(** ** OIDC token exchange *)

Ltac in_list H :=
  repeat (apply in_app_or in H; destruct H as [H | H]);
  cbn [In] in H;
  repeat match type of H with
         | _ \/ _ => destruct H as [H | H]
         | False => destruct H
         end.

(** The exchange events of a run: at most the one of [callsToExchange],
    and only in a run that built the client. *)
Lemma exchange_in_run (c : Client) (n : string) :
  In (EvExchange c n) (calls (run productId w req resp0)) ->
  n = ValueString (OIDCProviderName (config req)) /\
  (n =? "") = false /\
  c = fst (built productId w req) /\
  HasError (readDiags req resp0) = false /\
  (resolvedUrl w req =? "") = false /\
  isErr (snd (built productId w req)) = false.
Proof.
  open_summary.
  destruct (HasError (readDiags req resp0)) eqn:Hread;
    [intros []|].
  destruct (resolvedUrl w req =? ""); [intros []|].
  destruct (isErr (snd (built productId w req)));
    [intros [H | []]; discriminate H|].
  unfold callsToLicense, callsToExchange.
  destruct (ValueString (OIDCProviderName (config req)) =? "") eqn:Hname;
    split_ifs; cbn [snd trace]; intros H; in_list H;
    try discriminate H; injection H as <- <-; repeat split; assumption.
Qed.

(** C5: a run exchanges a token with the identity provider only for the
    configured provider name, and only when that name is non-empty; with
    no name no exchange call is made.  Whenever the exchange is made and
    returns an error, the run stops with the error "Failed OIDC ID token
    exchange": client.AddAuth is not called with some other credential
    and nothing is released. *)
Theorem oidc_exchange_gate :
  let r := run productId w req resp0 in
  let name := ValueString (OIDCProviderName (config req)) in
  (name = "" -> existsb isExchange (calls r) = false) /\
  (forall c n, In (EvExchange c n) (calls r) -> n = name /\ name <> "") /\
  (forall c n e,
     In (EvExchange c n) (calls r) ->
     snd (idp_exchange w c n) = Some e ->
     returnedEarly r = true /\
     HasError (Diagnostics_ (final r)) = true /\
     In (NewErrorDiagnostic "Failed OIDC ID token exchange" e)
        (Diagnostics_ (final r)) /\
     authArgs (calls r) = None /\
     DataSourceData (final r) = DataSourceData resp0 /\
     ResourceData (final r) = ResourceData resp0).
Proof.
  intros r name; subst r name.
  split; [|split].
  - intros Hname.
    destruct (existsb isExchange (calls (run productId w req resp0))) eqn:E;
      [|reflexivity].
    apply existsb_exists in E; destruct E as ([] & Hin & Hk); try discriminate Hk.
    apply exchange_in_run in Hin; destruct Hin as (-> & Hne & _).
    rewrite Hname in Hne; discriminate Hne.
  - intros c n Hin.
    apply exchange_in_run in Hin; destruct Hin as (-> & Hne & _).
    split; [reflexivity | apply String.eqb_neq; assumption].
  - intros c n e Hin Herr.
    apply exchange_in_run in Hin;
      destruct Hin as (-> & Hne & -> & Hread & Hurl & Hbuild).
    assert (Hex : snd (exchanged productId w req) = Some e).
    { unfold exchanged, oidc_result; rewrite Hne; assumption. }
    open_summary.
    rewrite Hread, Hurl, Hbuild, Hex.
    cbn [isErr Error fst snd resp trace returnedEarly
         Diagnostics_ DataSourceData ResourceData].
    repeat split;
      [apply HasError_AddError | apply AddError_In | apply authArgs_callsToExchange].
Qed.

(** ** Preflight checks *)

Lemma licenseEnabled_flag :
  licenseEnabled req = true <->
  CheckLicense (config req) = BoolNull \/ CheckLicense (config req) = BoolValue true.
Proof.
  unfold licenseEnabled.
  destruct (CheckLicense (config req)) as [| |[|]]; cbn;
    split; auto; intros H; try discriminate H; destruct H as [H | H]; discriminate H.
Qed.

(** The license check events of a run. *)
Lemma license_in_run (c : Client) (t : list string) :
  In (EvCheckLicense c t) (calls (run productId w req resp0)) ->
  licenseEnabled req = true.
Proof.
  open_summary.
  unfold callsToLicense, callsToExchange.
  destruct (licenseEnabled req); [reflexivity|].
  split_ifs; cbn [snd trace]; intros H; in_list H; discriminate H.
Qed.

Lemma license_called :
  reachesAuth productId w req resp0 = true ->
  licenseEnabled req = true ->
  In (EvCheckLicense (fst (authenticated productId w req)) tiers)
     (calls (run productId w req resp0)).
Proof.
  intros Hreach Hon; split_reach Hreach.
  open_summary.
  rewrite Hreach, Hreach3, Hreach2, Hreach1, Hreach0.
  unfold callsToLicense; rewrite Hon.
  split_ifs; cbn [snd trace]; rewrite <- ?app_assoc;
    apply in_or_app; right; right; left; reflexivity.
Qed.

(** C8: the license check is called only when [check_license] is unset
    or true, and then it is called as soon as the run has a credential;
    an error from it stops the run before the version lookup, with the
    error "Error checking Artifactory license" and nothing released.
    With [check_license] set to false the check is not called, and the
    run succeeds when attaching the credential and the version lookup
    give no error, whatever the license check would have answered. *)
Theorem license_check_gate :
  let r := run productId w req resp0 in
  let flag := CheckLicense (config req) in
  (forall c t, In (EvCheckLicense c t) (calls r) ->
               flag = BoolNull \/ flag = BoolValue true) /\
  (flag = BoolValue false -> existsb isCheckLicense (calls r) = false) /\
  (reachesAuth productId w req resp0 = true ->
   (flag = BoolNull \/ flag = BoolValue true ->
    In (EvCheckLicense (fst (authenticated productId w req)) tiers) (calls r) /\
    forall e,
      licenseChecked productId w req = Some e ->
      returnedEarly r = true /\
      HasError (Diagnostics_ (final r)) = true /\
      In (NewErrorDiagnostic "Error checking Artifactory license" e)
         (Diagnostics_ (final r)) /\
      existsb isGetVersion (calls r) = false /\
      DataSourceData (final r) = DataSourceData resp0 /\
      ResourceData (final r) = ResourceData resp0) /\
   (flag = BoolValue false ->
    snd (authenticated productId w req) = None ->
    snd (versionLookup productId w req) = None ->
    returnedEarly r = false /\
    HasError (Diagnostics_ (final r)) = false /\
    DataSourceData (final r) = Some (metadata productId w req) /\
    ResourceData (final r) = Some (metadata productId w req))).
Proof.
  intros r flag; subst r flag.
  split; [|split; [|intros Hreach; split]].
  - intros c t Hin; apply licenseEnabled_flag.
    apply license_in_run in Hin; assumption.
  - intros Hoff.
    destruct (existsb isCheckLicense (calls (run productId w req resp0))) eqn:E;
      [|reflexivity].
    apply existsb_exists in E; destruct E as ([] & Hin & Hk); try discriminate Hk.
    apply license_in_run in Hin.
    unfold licenseEnabled in Hin; rewrite Hoff in Hin; discriminate Hin.
  - intros Hon; apply licenseEnabled_flag in Hon.
    split; [apply license_called; assumption|].
    intros e Herr.
    split_reach Hreach.
    open_summary.
    rewrite Hreach, Hreach3, Hreach2, Hreach1, Hreach0, Hon, Herr.
    cbn [andb isErr Error fst snd resp trace returnedEarly
         Diagnostics_ DataSourceData ResourceData].
    repeat split; [apply HasError_AddError | apply AddError_In |].
    unfold callsToLicense, callsToExchange; rewrite Hon.
    split_ifs; reflexivity.
  - intros Hoff Hauth Hver.
    assert (Hv : reachesVersion productId w req resp0 = true).
    { unfold reachesVersion, licenseEnabled.
      rewrite Hreach, Hoff; reflexivity. }
    destruct (run_completes Hv Hver) as (Hr & Hd & Hds & Hrs & _).
    rewrite Hr, Hd, Hds, Hrs.
    unfold authDiags; rewrite Hauth; cbn [isErr].
    split_reach Hreach.
    repeat split; assumption.
Qed.

(** C1, as the code has it: when the run gets to the version lookup and
    the lookup returns an error, the run stops there with the error-level
    diagnostic "Error getting Artifactory version"; it records no
    warning, does not go on to the usage report and releases nothing. *)
Theorem version_lookup_failure (e : string) :
  reachesVersion productId w req resp0 = true ->
  snd (versionLookup productId w req) = Some e ->
  let r := run productId w req resp0 in
  returnedEarly r = true /\
  HasError (Diagnostics_ (final r)) = true /\
  In (NewErrorDiagnostic "Error getting Artifactory version"
        ("The provider functionality might be affected by the absence of Artifactory version in the context. "
         ++ e))
     (Diagnostics_ (final r)) /\
  (forall d, In d (Diagnostics_ (final r)) ->
             severity d = SeverityWarning -> In d (readDiags req resp0)) /\
  existsb isSendUsage (calls r) = false /\
  DataSourceData (final r) = DataSourceData resp0 /\
  ResourceData (final r) = ResourceData resp0.
Proof.
  intros Hreach Hver r; subst r; split_reach Hreach.
  open_summary.
  rewrite Hreach, Hreach3, Hreach2, Hreach1, Hreach0, Hreach4, Hver.
  cbn [isErr Error fst snd resp trace returnedEarly
       Diagnostics_ DataSourceData ResourceData].
  repeat split; [apply HasError_AddError | apply AddError_In | |].
  - intros d Hin Hsev.
    apply AddError_only in Hin; destruct Hin as [Hin | ->]; [|discriminate Hsev].
    apply authDiags_from in Hin; destruct Hin as [Hin | ->];
      [assumption | discriminate Hsev].
  - unfold callsToLicense, callsToExchange.
    split_ifs; reflexivity.
Qed.

(** ** Further properties of [Configure] *)

Lemma Append_In_iff (ins : list Diagnostic) (diags : Diagnostics) (d : Diagnostic) :
  In d (Append diags ins) <-> In d diags \/ In d ins.
Proof.
  revert diags; induction ins as [|x ins IH]; intros diags; simpl.
  - tauto.
  - rewrite IH.
    destruct (Contains diags x) eqn:E.
    + apply Contains_In in E.
      split; [tauto|].
      intros [H | [<- | H]]; auto.
    + rewrite in_app_iff; simpl; tauto.
Qed.

Lemma HasError_exists (diags : Diagnostics) :
  HasError diags = true <-> exists d, In d diags /\ severity d = SeverityError.
Proof.
  unfold HasError; rewrite existsb_exists.
  split; intros (d & Hin & Hd); exists d; (split; [assumption|]);
    unfold isError in *; apply severity_eqb_eq; assumption.
Qed.

Lemma HasError_Append (diags : Diagnostics) (ins : list Diagnostic) :
  HasError (Append diags ins) = HasError diags || HasError ins.
Proof.
  apply eq_true_iff_eq.
  rewrite orb_true_iff, !HasError_exists.
  split.
  - intros (d & Hin & Hd); apply Append_In_iff in Hin.
    destruct Hin; [left | right]; exists d; auto.
  - intros [(d & Hin & Hd) | (d & Hin & Hd)]; exists d;
      (split; [apply Append_In_iff; auto | assumption]).
Qed.

Lemma length_AddError (diags : Diagnostics) (summary detail : string) :
  length (AddError diags summary detail) <= S (length diags).
Proof.
  unfold AddError; simpl.
  destruct (Contains diags (NewErrorDiagnostic summary detail)); [lia|].
  rewrite length_app; simpl; lia.
Qed.

Lemma isErr_false (e : error) : isErr e = false <-> e = None.
Proof. destruct e; simpl; split; congruence. Qed.

Ltac exits :=
  open_summary;
  destruct (HasError (readDiags req resp0)) eqn:Eread;
  [|destruct (resolvedUrl w req =? "") eqn:Eurl;
    [|destruct (isErr (snd (built productId w req))) eqn:Ebuild;
      [|destruct (isErr (snd (exchanged productId w req))) eqn:Eexch;
        [|destruct ((apiKey req =? "") && (resolvedToken productId w req =? ""))
            eqn:Ecred;
          [|destruct (licenseEnabled req && isErr (licenseChecked productId w req))
              eqn:Elic;
            [|destruct (isErr (snd (versionLookup productId w req))) eqn:Ever]]]]]];
  cbn [fst snd resp trace returnedEarly Diagnostics_ DataSourceData ResourceData].

(** X1: When the response already holds an error on entry, or reading the
    provider block gives one, the run returns at once: no collaborator is
    called, no diagnostic is added beyond those of the reading, and
    nothing is released. *)
Theorem read_failure_stops :
  HasError (Diagnostics_ resp0) = true \/ HasError (snd (Config_Get req)) = true ->
  let r := run productId w req resp0 in
  returnedEarly r = true /\
  calls r = [] /\
  Diagnostics_ (final r) = readDiags req resp0 /\
  DataSourceData (final r) = DataSourceData resp0 /\
  ResourceData (final r) = ResourceData resp0.
Proof.
  intros H r; subst r.
  assert (Hread : HasError (readDiags req resp0) = true).
  { unfold readDiags; rewrite HasError_Append; apply orb_true_iff; assumption. }
  open_summary; rewrite Hread.
  repeat split.
Qed.

(** X2: A run never drops a diagnostic: whatever the response held on entry
    and whatever reading the provider block reported is still in the
    response at the end. *)
Theorem diagnostics_kept (d : Diagnostic) :
  In d (Diagnostics_ resp0) \/ In d (snd (Config_Get req)) ->
  In d (Diagnostics_ (final (run productId w req resp0))).
Proof.
  intros H.
  assert (Hread : In d (readDiags req resp0)).
  { unfold readDiags; apply Append_In_iff; assumption. }
  assert (Hauth : In d (authDiags productId w req resp0)).
  { unfold authDiags; destruct (isErr (snd (authenticated productId w req)));
      [apply Append_keeps|]; assumption. }
  exits; first [assumption | apply Append_keeps; assumption].
Qed.

(** X3: The diagnostics a run adds itself are all errors, each under one of
    the seven summaries of [Configure]; a run never adds a warning.  It
    adds at most two of them, and at most one unless client.AddAuth
    returned an error. *)
Theorem only_errors_added :
  let r := run productId w req resp0 in
  (forall d, In d (Diagnostics_ (final r)) ->
             In d (readDiags req resp0)
             \/ (severity d = SeverityError /\ In (Summary d) ownSummaries)) /\
  length (Diagnostics_ (final r)) <= length (readDiags req resp0) + 2 /\
  (snd (authenticated productId w req) = None ->
   length (Diagnostics_ (final r)) <= length (readDiags req resp0) + 1).
Proof.
  intros r; subst r.
  assert (Hauth : forall d, In d (authDiags productId w req resp0) ->
             In d (readDiags req resp0)
             \/ (severity d = SeverityError /\ In (Summary d) ownSummaries)).
  { intros d Hd; apply authDiags_from in Hd; destruct Hd as [Hd | ->];
      [left; assumption | right; split; [reflexivity | simpl; tauto]]. }
  assert (Hlen : length (authDiags productId w req resp0)
                 <= S (length (readDiags req resp0))).
  { unfold authDiags; destruct (isErr (snd (authenticated productId w req)));
      [apply length_AddError | lia]. }
  assert (Hlen' : snd (authenticated productId w req) = None ->
                  length (authDiags productId w req resp0)
                  = length (readDiags req resp0)).
  { intros E; unfold authDiags; rewrite E; reflexivity. }
  split; [|split].
  - intros d; exits; intros Hd;
      try (apply AddError_only in Hd; destruct Hd as [Hd | ->];
           [| right; split; [reflexivity | simpl; tauto]]);
      auto.
  - exits;
      repeat match goal with
             | |- context [length (AddError ?D ?s ?m)] =>
                 pose proof (length_AddError D s m); generalize dependent (AddError D s m);
                 intros
             end; lia.
  - intros E; specialize (Hlen' E).
    exits;
      repeat match goal with
             | |- context [length (AddError ?D ?s ?m)] =>
                 pose proof (length_AddError D s m); generalize dependent (AddError D s m);
                 intros
             end; lia.
Qed.

(** X4: A run that ends without an error diagnostic went all the way: the
    client was built, the exchange, the attachment, the license check
    when enabled and the version lookup gave no error, and both data
    fields hold the metadata. *)
Theorem clean_run_releases :
  let r := run productId w req resp0 in
  HasError (Diagnostics_ (final r)) = false ->
  returnedEarly r = false /\
  DataSourceData (final r) = Some (metadata productId w req) /\
  ResourceData (final r) = Some (metadata productId w req) /\
  resolvedUrl w req <> "" /\
  snd (built productId w req) = None /\
  snd (exchanged productId w req) = None /\
  snd (authenticated productId w req) = None /\
  (licenseEnabled req = true -> licenseChecked productId w req = None) /\
  snd (versionLookup productId w req) = None.
Proof.
  intros r; subst r.
  exits; rewrite ?HasError_AddError; intros Hclean; try discriminate Hclean;
    [congruence|].
  unfold authDiags in Hclean.
  destruct (isErr (snd (authenticated productId w req))) eqn:Eauth;
    [rewrite HasError_AddError in Hclean; discriminate Hclean|].
  apply isErr_false in Ebuild, Eexch, Eauth, Ever.
  apply String.eqb_neq in Eurl.
  repeat split; try assumption.
  intros Hon; rewrite Hon in Elic; apply isErr_false; exact Elic.
Qed.

Lemma returnedEarly_run :
  returnedEarly (run productId w req resp0)
  = negb (reachesVersion productId w req resp0
          && negb (isErr (snd (versionLookup productId w req)))).
Proof.
  unfold reachesVersion, reachesAuth, reachesCredentials.
  exits; cbn [negb andb]; rewrite ?andb_false_r; reflexivity.
Qed.

(** X5: A run completes, rather than returning early, exactly when the
    configuration is read without error, a URL and a credential are
    found, and neither client.Build, the exchange, an enabled license
    check nor the version lookup returns an error; an error from
    client.AddAuth does not matter. *)
Theorem completes_iff :
  returnedEarly (run productId w req resp0) = false <->
  HasError (readDiags req resp0) = false /\
  resolvedUrl w req <> "" /\
  snd (built productId w req) = None /\
  snd (exchanged productId w req) = None /\
  (apiKey req <> "" \/ resolvedToken productId w req <> "") /\
  (licenseEnabled req = true -> licenseChecked productId w req = None) /\
  snd (versionLookup productId w req) = None.
Proof.
  rewrite returnedEarly_run, negb_false_iff.
  unfold reachesVersion, reachesAuth, reachesCredentials.
  rewrite !andb_true_iff, !negb_true_iff, andb_false_iff, !isErr_false,
    !String.eqb_neq.
  split.
  - intros ((((((H1 & H2) & H3) & H4) & H5) & H6) & H7).
    repeat split; try assumption.
    intros Hon; apply andb_false_iff in H6; destruct H6 as [H6 | H6];
      [congruence | apply isErr_false; assumption].
  - intros (H1 & H2 & H3 & H4 & H5 & H6 & H7).
    repeat split; try assumption.
    apply andb_false_iff.
    destruct (licenseEnabled req); [right | left; reflexivity].
    apply isErr_false; auto.
Qed.

Ltac open_calls :=
  unfold callsToLicense, callsToExchange; split_ifs; cbn [app].

(** X6: The usage report is started exactly in the runs that complete, once,
    after the version lookup gave no error, for [productId] and the
    feature "Terraform/" followed by the Terraform version of the
    request, on the client that client.AddAuth returned. *)
Theorem usage_report :
  let r := run productId w req resp0 in
  existsb isSendUsage (calls r) = negb (returnedEarly r) /\
  length (filter isSendUsage (calls r)) <= 1 /\
  (forall c p f,
     In (EvSendUsage c p f) (calls r) ->
     c = fst (authenticated productId w req) /\
     p = productId /\
     f = "Terraform/" ++ TerraformVersion req /\
     snd (versionLookup productId w req) = None).
Proof.
  intros r; subst r.
  exits; open_calls;
    (split; [reflexivity|]); (split; [cbn; lia|]);
    intros c p f H; cbn [In] in H;
    repeat match type of H with
           | _ \/ _ => destruct H as [H | H]
           | False => destruct H
           end;
    try discriminate H;
    injection H as <- <- <-; apply isErr_false in Ever; repeat split; assumption.
Qed.

(** X7: The calls of a run follow the order of the text of [Configure]:
    client.Build, the token exchange, client.AddAuth, the license check,
    the version lookup, the usage report; none is made twice and none
    out of order. *)
Theorem calls_in_order :
  StronglySorted lt (map rank (calls (run productId w req resp0))).
Proof.
  exits; open_calls; cbn [map rank]; repeat constructor.
Qed.

(** X8: client.Build is never called with an empty URL, and client.AddAuth
    is never called with both the API key and the access token empty; the
    client given to client.AddAuth is the one client.Build returned. *)
Theorem never_empty_arguments :
  let r := run productId w req resp0 in
  (forall u p, In (EvBuild u p) (calls r) ->
               u <> "" /\ u = resolvedUrl w req /\ p = productId) /\
  (forall c k t, In (EvAddAuth c k t) (calls r) ->
                 (k <> "" \/ t <> "") /\
                 c = fst (built productId w req) /\
                 snd (built productId w req) = None).
Proof.
  intros r; subst r; split.
  - intros u p.
    exits; open_calls; intros H; cbn [In] in H;
      repeat match type of H with
             | _ \/ _ => destruct H as [H | H]
             | False => destruct H
             end;
      try discriminate H;
      injection H as <- <-; apply String.eqb_neq in Eurl; repeat split; assumption.
  - intros c k t.
    exits; open_calls; intros H; cbn [In] in H;
      repeat match type of H with
             | _ \/ _ => destruct H as [H | H]
             | False => destruct H
             end;
      try discriminate H;
      injection H as <- <- <-;
      apply isErr_false in Ebuild;
      apply andb_false_iff in Ecred;
      (split; [destruct Ecred as [E | E]; apply String.eqb_neq in E; auto
              | split; [reflexivity | assumption]]).
Qed.

(** X9: The license check and the version lookup are made on the client that
    client.AddAuth returned, also when client.AddAuth reported an error;
    the license tiers asked for are always Enterprise, Commercial and
    Edge; the version is looked up only after an enabled license check
    passed. *)
Theorem preflight_on_attached_client :
  let r := run productId w req resp0 in
  (forall c ts, In (EvCheckLicense c ts) (calls r) ->
                c = fst (authenticated productId w req) /\
                ts = ["Enterprise"; "Commercial"; "Edge"]) /\
  (forall c, In (EvGetVersion c) (calls r) ->
             c = fst (authenticated productId w req) /\
             (licenseEnabled req = true -> licenseChecked productId w req = None)).
Proof.
  intros r; subst r; split.
  - intros c ts.
    exits; open_calls; intros H; cbn [In] in H;
      repeat match type of H with
             | _ \/ _ => destruct H as [H | H]
             | False => destruct H
             end;
      try discriminate H;
      injection H as <- <-; split; reflexivity.
  - intros c.
    exits; open_calls; intros H; cbn [In] in H;
      repeat match type of H with
             | _ \/ _ => destruct H as [H | H]
             | False => destruct H
             end;
      try discriminate H;
      injection H as <-;
      (split; [reflexivity|]); intros Hon; try discriminate Hon;
      apply isErr_false; exact Elic.
Qed.

(** ** Errors of the client *)




End ConfigureFacts.

(** X10: With a URL and an access token in the provider block, the process
    environment plays no part: the run is the same in every
    environment. *)
Theorem environment_ignored {Client : Type} (productId : string)
    (w : @World Client) (req : ConfigureRequest)
    (resp0 : @ConfigureResponse Client) (env : Environ) :
  ValueString (Url (config req)) <> "" ->
  ValueString (AccessToken (config req)) <> "" ->
  run productId (with_env w env) req resp0 = run productId w req resp0.
Proof.
  intros Hurl Htok.
  apply String.eqb_neq in Hurl, Htok.
  rewrite !run_summary.
  unfold summary, stopped, authDiags, callsToLicense, callsToExchange, metadata,
    versionLookup, licenseChecked, authenticated, tiers, licenseEnabled, apiKey,
    resolvedToken, envToken, exchanged, oidc_result, built, resolvedUrl, readDiags.
  rewrite Hurl, Htok.
  reflexivity.
Qed.

(** X11: [Configure] reads string attributes through ValueString and
    [check_license] through IsNull and ValueBool only: a null or unknown
    string attribute is the same to it as an empty one, and an unknown
    [check_license] the same as false, so that the license check is
    skipped. *)
Theorem null_and_unknown_as_empty {Client : Type} (productId : string)
    (w : @World Client) (req : ConfigureRequest)
    (resp0 : @ConfigureResponse Client) :
  run productId w (flattened req) resp0 = run productId w req resp0.
Proof.
  rewrite !run_summary.
  unfold summary, stopped, authDiags, callsToLicense, callsToExchange, metadata,
    versionLookup, licenseChecked, authenticated, tiers, licenseEnabled, apiKey,
    resolvedToken, envToken, exchanged, oidc_result, built, resolvedUrl, readDiags,
    config, flattened, flatten, knownString.
  cbn [fst snd Config_Get TerraformVersion Url AccessToken ApiKey OIDCProviderName
       CheckLicense ValueString].
  destruct (CheckLicense (fst (Config_Get req))) as [| |[|]]; reflexivity.
Qed.

(** ** The local Gradle repository resource *)

Section LocalGradleFacts.

Import Artifactory.

Variable SchemaResourceData : Type.
Variable BaseOther : Type.
Variable Packer : Type.
Variable zeroOther : BaseOther.
Variable baseLocalRepoSchema : SchemaMap.
Variable mergeSchema : SchemaMap -> SchemaMap -> SchemaMap.
Variable universalPack : Packer.
Variable unpackBaseLocalRepo :
  SchemaResourceData -> string -> LocalRepositoryBaseParams BaseOther.
Variable getString : SchemaResourceData -> string -> bool -> string.
Variable getInt : SchemaResourceData -> string -> bool -> Z.
Variable getBool : SchemaResourceData -> string -> bool -> bool.
Variable Id : GradleLocalRepositoryParams BaseOther -> string.

(** C10: for every resource data the error result of
    [unPackLocalGradleRepository] is nil, and the constructor that
    [resourceArtifactoryLocalGradleRepository] hands to mkResourceSchema
    always makes parameters with package type "gradle" and rclass
    "local". *)
Theorem unpack_local_gradle (data : SchemaResourceData) :
  snd (unPackLocalGradleRepository SchemaResourceData BaseOther
         unpackBaseLocalRepo getString getInt getBool Id data) = None /\
  let constructor :=
    resourceArtifactoryLocalGradleRepository SchemaResourceData BaseOther
      (unit -> GradleLocalRepositoryParams BaseOther) Packer
      zeroOther baseLocalRepoSchema mergeSchema universalPack
      unpackBaseLocalRepo getString getInt getBool Id
      (fun _ _ _ constructor => constructor) in
  forall u : unit,
    PackageType (Base (constructor u)) = "gradle" /\
    Rclass (Base (constructor u)) = "local".
Proof.
  split; [reflexivity|].
  intros constructor u; subst constructor.
  split; reflexivity.
Qed.

(** X12: Every field of GradleLocalRepositoryParams that
    [unPackLocalGradleRepository] fills is read from the attribute named
    by the field's [hcl] tag, with the getter of the type that
    [gradleLocalSchema] declares for that attribute, and never only when
    changed; the schema adds exactly these six attributes, all optional.
    The base parameters are unpacked for package type "gradle", and the
    identifier returned is that of the parameters returned. *)
Theorem unpack_fields_by_tag (data : SchemaResourceData) :
  let r :=
    unPackLocalGradleRepository SchemaResourceData BaseOther
      unpackBaseLocalRepo getString getInt getBool Id data in
  let repo := fst (fst r) in
  let own := gradleLocalSchema baseLocalRepoSchema (fun _ added => added) in
  Forall2
    (fun (attribute : string * SchemaAttribute) (field : string * Field BaseOther) =>
       fst attribute = fst field /\
       Type_ (snd attribute) = fieldType (snd field) /\
       Artifactory.Optional (snd attribute) = true /\
       match snd field with
       | StringField get => get repo = getString data (fst attribute) false
       | IntField get => get repo = getInt data (fst attribute) false
       | BoolField get => get repo = getBool data (fst attribute) false
       end)
    own gradleFields /\
  Base repo = unpackBaseLocalRepo data "gradle" /\
  snd (fst r) = Id repo.
Proof.
  intros r repo own; subst r repo own.
  split; [|split; reflexivity].
  unfold gradleLocalSchema, gradleFields.
  repeat (constructor; [repeat split|]).
  constructor.
Qed.

End LocalGradleFacts.

(** ** The provider schema *)

(** X13: The provider schema declares one attribute for each field of
    ArtifactoryProviderModel, under the field's [tfsdk] tag and of the
    field's type, and no other; every attribute is optional, and the
    sensitive ones are the two credentials that [Configure] hands to
    client.AddAuth, [access_token] and [api_key]. *)
Theorem schema_matches_model :
  Forall2
    (fun (attribute : string * Attribute) (field : string * ModelField) =>
       fst attribute = fst field /\
       kind (snd attribute) = fieldKind (snd field) /\
       Provider.Optional (snd attribute) = true)
    Schema modelFields /\
  NoDup (map fst Schema) /\
  map fst (filter (fun attribute => Sensitive (snd attribute)) Schema)
  = ["access_token"; "api_key"].
Proof.
  split; [|split; [|reflexivity]].
  - unfold Schema, modelFields.
    repeat (constructor; [repeat split|]).
    constructor.
  - cbn [map fst Schema].
    repeat (constructor; [cbn [In]; intuition discriminate|]).
    constructor.
Qed.

(** * The properties on concrete runs *)

(** C6 at work: with an empty provider block and only ARTIFACTORY_URL
    set, the client is built for the URL of the environment. *)
Lemma url_resolution_witness :
  HasError (readDiags (Demo.request Demo.blank) (@emptyResponse string)) = false /\
  exists rest,
    calls (run Demo.pid (Demo.world Demo.urlFromEnv) (Demo.request Demo.blank)
             emptyResponse)
    = EvBuild "https://env.example/artifactory" Demo.pid :: rest.
Proof.
  split; [reflexivity|].
  apply (url_resolution Demo.pid (Demo.world Demo.urlFromEnv)
           (Demo.request Demo.blank) emptyResponse); [reflexivity | discriminate].
Defined.

(** C7 at work: a URL from the environment and an empty provider block
    leave no credential, and the run stops with the missing-credential
    error. *)
Lemma missing_credentials_witness :
  let w := Demo.world Demo.urlFromEnv in
  let req := Demo.request Demo.blank in
  let r := run Demo.pid w req emptyResponse in
  reachesCredentials Demo.pid w req emptyResponse = true /\
  returnedEarly r = true /\
  HasError (Diagnostics_ (final r)) = true /\
  authArgs (calls r) = None.
Proof.
  cbv zeta; split; [reflexivity|].
  destruct (missing_credentials Demo.pid (Demo.world Demo.urlFromEnv)
              (Demo.request Demo.blank) emptyResponse eq_refl) as [Hnone _].
  destruct (Hnone eq_refl eq_refl eq_refl eq_refl) as (H1 & H2 & _ & H4 & _).
  exact (conj H1 (conj H2 H4)).
Defined.

(** C2 at work, the scenario of the specification: URL and API key "k1"
    in the provider block, no environment variable, no OIDC provider; the
    API key is the credential and the run succeeds. *)
Lemma access_token_override_chain_witness :
  let w := Demo.world Demo.healthy in
  let req := Demo.request Demo.apiKeyOnly in
  let r := run Demo.pid w req emptyResponse in
  reachesCredentials Demo.pid w req emptyResponse = true /\
  attachedCredential (calls r) = Some (CredApiKey "k1") /\
  returnedEarly r = false /\
  HasError (Diagnostics_ (final r)) = false /\
  ResourceData (final r)
  = Some {| meta_Client := "https://x.example/artifactory#auth";
            ProductId := Demo.pid;
            ArtifactoryVersion := "7.77.3" |}.
Proof.
  cbv zeta; split; [reflexivity|].
  destruct (access_token_override_chain Demo.pid (Demo.world Demo.healthy)
              (Demo.request Demo.apiKeyOnly) emptyResponse eq_refl)
    as (_ & _ & Hkey).
  destruct (Hkey eq_refl) as [Hcred Hrun]; [discriminate|].
  destruct (Hrun eq_refl (fun _ => eq_refl) eq_refl) as (H1 & H2 & _ & _ & H5).
  exact (conj Hcred (conj H1 (conj H2 H5))).
Defined.

(** C3 as amended, at work: with an environment token, an exchanged
    token and a config token, the config token is attached. *)
Lemma credential_precedence_witness :
  let w := Demo.world Demo.withOidc in
  let req := Demo.request Demo.tokenAndOidc in
  reachesCredentials Demo.pid w req emptyResponse = true /\
  attachedCredential (calls (run Demo.pid w req emptyResponse))
  = Some (CredAccessToken "config-token").
Proof.
  cbv zeta; split; [reflexivity|].
  apply (credential_precedence Demo.pid (Demo.world Demo.withOidc)
           (Demo.request Demo.tokenAndOidc) emptyResponse eq_refl).
Defined.

(** C5 at work: the identity provider refuses the exchange; the run
    stops although the environment holds a token. *)
Lemma oidc_exchange_gate_witness :
  let w := Demo.world Demo.oidcDown in
  let req := Demo.request Demo.tokenAndOidc in
  let r := run Demo.pid w req emptyResponse in
  In (EvExchange "https://x.example/artifactory" "my-idp") (calls r) /\
  snd (idp_exchange w "https://x.example/artifactory" "my-idp")
  = Some "401 Unauthorized" /\
  returnedEarly r = true /\
  HasError (Diagnostics_ (final r)) = true /\
  authArgs (calls r) = None.
Proof.
  cbv zeta.
  assert (Hin : In (EvExchange "https://x.example/artifactory" "my-idp")
                   (calls (run Demo.pid (Demo.world Demo.oidcDown)
                             (Demo.request Demo.tokenAndOidc) emptyResponse))).
  { right; left; reflexivity. }
  split; [exact Hin|]; split; [reflexivity|].
  destruct (oidc_exchange_gate Demo.pid (Demo.world Demo.oidcDown)
              (Demo.request Demo.tokenAndOidc) emptyResponse) as (_ & _ & Hfail).
  destruct (Hfail _ _ "401 Unauthorized" Hin eq_refl) as (H1 & H2 & _ & H4 & _).
  exact (conj H1 (conj H2 H4)).
Defined.

(** C8 at work: the server has no accepted license, the check is
    switched off, and the run succeeds. *)
Lemma license_check_gate_witness :
  let w := Demo.world Demo.unlicensed in
  let req := Demo.request Demo.licenseOff in
  let r := run Demo.pid w req emptyResponse in
  reachesAuth Demo.pid w req emptyResponse = true /\
  licenseChecked Demo.pid w req
  = Some "Artifactory requires Pro or Enterprise or Edge license" /\
  existsb isCheckLicense (calls r) = false /\
  returnedEarly r = false /\
  HasError (Diagnostics_ (final r)) = false.
Proof.
  cbv zeta; split; [reflexivity|]; split; [reflexivity|].
  destruct (license_check_gate Demo.pid (Demo.world Demo.unlicensed)
              (Demo.request Demo.licenseOff) emptyResponse) as (_ & Hoff & Hrun).
  split; [exact (Hoff eq_refl)|].
  destruct (Hrun eq_refl) as [_ Hok].
  destruct (Hok eq_refl eq_refl eq_refl) as (H1 & H2 & _).
  exact (conj H1 H2).
Defined.

(** C9 at work: the run of the scenario completes and both fields hold
    the same metadata. *)
Lemma metadata_release_witness :
  let r := run Demo.pid (Demo.world Demo.healthy) (Demo.request Demo.apiKeyOnly)
             emptyResponse in
  let meta := {| meta_Client := "https://x.example/artifactory#auth";
                 ProductId := Demo.pid;
                 ArtifactoryVersion := "7.77.3" |} in
  returnedEarly r = false /\
  filter isMetadata (calls r) = [EvMetadata meta] /\
  DataSourceData (final r) = Some meta /\
  ResourceData (final r) = Some meta.
Proof.
  cbv zeta; split; [reflexivity|].
  destruct (metadata_release Demo.pid (Demo.world Demo.healthy)
              (Demo.request Demo.apiKeyOnly) emptyResponse) as (_ & Hdone & _).
  exact (Hdone eq_refl).
Defined.

(** C1 at work: the server does not answer the version request and the
    run ends with an error, nothing released. *)
Lemma version_lookup_failure_witness :
  let w := Demo.world Demo.versionDown in
  let req := Demo.request Demo.apiKeyOnly in
  let r := run Demo.pid w req emptyResponse in
  reachesVersion Demo.pid w req emptyResponse = true /\
  snd (versionLookup Demo.pid w req) = Some "connection refused" /\
  returnedEarly r = true /\
  HasError (Diagnostics_ (final r)) = true /\
  existsb isWarning (Diagnostics_ (final r)) = false /\
  ResourceData (final r) = None.
Proof.
  cbv zeta; split; [reflexivity|]; split; [reflexivity|].
  destruct (version_lookup_failure Demo.pid (Demo.world Demo.versionDown)
              (Demo.request Demo.apiKeyOnly) emptyResponse "connection refused"
              eq_refl eq_refl) as (H1 & H2 & _ & _ & _ & _ & H7).
  exact (conj H1 (conj H2 (conj eq_refl H7))).
Defined.


(** C3 as worded fails: with a config access token and a successful
    exchange, the config token is attached, not the exchanged one. *)
Lemma oidc_over_config_counterexample :
  let w := Demo.world Demo.withOidc in
  let req := Demo.request Demo.tokenAndOidc in
  reachesCredentials Demo.pid w req emptyResponse = true /\
  exchanged Demo.pid w req = ("oidc-token", None) /\
  AccessToken (config req) = StringValue "config-token" /\
  by_precedence precedence_as_stated
    (sourceValue (Getenv w) (fst (exchanged Demo.pid w req)) (config req))
  = Some (CredAccessToken "oidc-token") /\
  attachedCredential (calls (run Demo.pid w req emptyResponse))
  = Some (CredAccessToken "config-token") /\
  attachedCredential (calls (run Demo.pid w req emptyResponse))
  <> by_precedence precedence_as_stated
       (sourceValue (Getenv w) (fst (exchanged Demo.pid w req)) (config req)).
Proof.
  cbv zeta; repeat split; try reflexivity.
  vm_compute; discriminate.
Qed.

(** ** Further properties on concrete runs *)

(** A response that already holds an error: nothing is called although
    the provider block and the server are fine. *)
Lemma read_failure_stops_witness :
  let earlier := NewErrorDiagnostic "Invalid provider block" "unexpected attribute" in
  let resp0 := {| Diagnostics_ := [earlier];
                  DataSourceData := @None (@ProviderMetadata string);
                  ResourceData := None |} in
  let r := run Demo.pid (Demo.world Demo.healthy) (Demo.request Demo.apiKeyOnly) resp0 in
  HasError (Diagnostics_ resp0) = true /\
  returnedEarly r = true /\
  calls r = [] /\
  Diagnostics_ (final r) = [earlier].
Proof.
  cbv zeta; split; [reflexivity|].
  destruct (read_failure_stops Demo.pid (Demo.world Demo.healthy)
              (Demo.request Demo.apiKeyOnly)
              {| Diagnostics_ :=
                   [NewErrorDiagnostic "Invalid provider block" "unexpected attribute"];
                 DataSourceData := None;
                 ResourceData := None |}
              (or_introl eq_refl)) as (H1 & H2 & H3 & _).
  exact (conj H1 (conj H2 H3)).
Defined.

(** A warning that the response held on entry is still there after a
    run that failed at the version lookup. *)
Lemma diagnostics_kept_witness :
  let earlier := mkDiagnostic SeverityWarning "Deprecated attribute" "api_key" in
  let resp0 := {| Diagnostics_ := [earlier];
                  DataSourceData := @None (@ProviderMetadata string);
                  ResourceData := None |} in
  In earlier (Diagnostics_ resp0) /\
  In earlier
     (Diagnostics_
        (final (run Demo.pid (Demo.world Demo.versionDown)
                  (Demo.request Demo.apiKeyOnly) resp0))).
Proof.
  cbv zeta.
  assert (Hin : In (mkDiagnostic SeverityWarning "Deprecated attribute" "api_key")
                   [mkDiagnostic SeverityWarning "Deprecated attribute" "api_key"]).
  { left; reflexivity. }
  split; [exact Hin|].
  exact (diagnostics_kept Demo.pid (Demo.world Demo.versionDown)
           (Demo.request Demo.apiKeyOnly)
           {| Diagnostics_ :=
                [mkDiagnostic SeverityWarning "Deprecated attribute" "api_key"];
              DataSourceData := None;
              ResourceData := None |}
           _ (or_introl Hin)).
Defined.

(** The run that fails at the version lookup adds one diagnostic, an
    error under one of the summaries of [Configure]. *)
Lemma only_errors_added_witness :
  let w := Demo.world Demo.versionDown in
  let req := Demo.request Demo.apiKeyOnly in
  let r := run Demo.pid w req emptyResponse in
  let d :=
    NewErrorDiagnostic "Error getting Artifactory version"
      "The provider functionality might be affected by the absence of Artifactory version in the context. connection refused" in
  In d (Diagnostics_ (final r)) /\
  snd (authenticated Demo.pid w req) = None /\
  (In d (readDiags req (@emptyResponse string))
   \/ (severity d = SeverityError /\ In (Summary d) ownSummaries)) /\
  length (Diagnostics_ (final r)) <= length (readDiags req (@emptyResponse string)) + 1.
Proof.
  cbv zeta.
  destruct (only_errors_added Demo.pid (Demo.world Demo.versionDown)
              (Demo.request Demo.apiKeyOnly) emptyResponse) as (Hown & _ & Hone).
  assert (Hin : In (NewErrorDiagnostic "Error getting Artifactory version"
                      "The provider functionality might be affected by the absence of Artifactory version in the context. connection refused")
                   (Diagnostics_
                      (final (run Demo.pid (Demo.world Demo.versionDown)
                                (Demo.request Demo.apiKeyOnly) emptyResponse)))).
  { left; reflexivity. }
  exact (conj Hin (conj eq_refl (conj (Hown _ Hin) (Hone eq_refl)))).
Defined.

(** The scenario of the specification ends without an error diagnostic,
    so it released the metadata. *)
Lemma clean_run_releases_witness :
  let w := Demo.world Demo.healthy in
  let req := Demo.request Demo.apiKeyOnly in
  let r := run Demo.pid w req emptyResponse in
  HasError (Diagnostics_ (final r)) = false /\
  returnedEarly r = false /\
  ResourceData (final r) = Some (metadata Demo.pid w req).
Proof.
  cbv zeta; split; [reflexivity|].
  destruct (clean_run_releases Demo.pid (Demo.world Demo.healthy)
              (Demo.request Demo.apiKeyOnly) emptyResponse eq_refl)
    as (H1 & _ & H3 & _).
  exact (conj H1 H3).
Defined.

(** The run in which client.AddAuth fails completes all the same. *)
Lemma completes_iff_witness :
  let w := Demo.world Demo.authFails in
  let req := Demo.request Demo.apiKeyOnly in
  snd (authenticated Demo.pid w req) = Some "no authentication details supplied" /\
  returnedEarly (run Demo.pid w req emptyResponse) = false.
Proof.
  cbv zeta; split; [reflexivity|].
  apply (completes_iff Demo.pid (Demo.world Demo.authFails)
           (Demo.request Demo.apiKeyOnly) emptyResponse).
  repeat split; try reflexivity; try discriminate.
  left; discriminate.
Defined.

(** The usage report of the scenario. *)
Lemma usage_report_witness :
  let w := Demo.world Demo.healthy in
  let req := Demo.request Demo.apiKeyOnly in
  let r := run Demo.pid w req emptyResponse in
  In (EvSendUsage "https://x.example/artifactory#auth" Demo.pid "Terraform/1.5.7")
     (calls r) /\
  snd (versionLookup Demo.pid w req) = None.
Proof.
  cbv zeta.
  assert (Hin : In (EvSendUsage "https://x.example/artifactory#auth" Demo.pid
                      "Terraform/1.5.7")
                   (calls (run Demo.pid (Demo.world Demo.healthy)
                             (Demo.request Demo.apiKeyOnly) emptyResponse))).
  { do 4 right; left; reflexivity. }
  split; [exact Hin|].
  destruct (usage_report Demo.pid (Demo.world Demo.healthy)
              (Demo.request Demo.apiKeyOnly) emptyResponse) as (_ & _ & Hargs).
  destruct (Hargs _ _ _ Hin) as (_ & _ & _ & H4).
  exact H4.
Defined.

(** The call to client.AddAuth of the scenario carries the API key. *)
Lemma never_empty_arguments_witness :
  let w := Demo.world Demo.healthy in
  let req := Demo.request Demo.apiKeyOnly in
  let r := run Demo.pid w req emptyResponse in
  In (EvAddAuth "https://x.example/artifactory" "k1" "") (calls r) /\
  ("k1" <> "" \/ "" <> "").
Proof.
  cbv zeta.
  assert (Hin : In (EvAddAuth "https://x.example/artifactory" "k1" "")
                   (calls (run Demo.pid (Demo.world Demo.healthy)
                             (Demo.request Demo.apiKeyOnly) emptyResponse))).
  { right; left; reflexivity. }
  split; [exact Hin|].
  destruct (never_empty_arguments Demo.pid (Demo.world Demo.healthy)
              (Demo.request Demo.apiKeyOnly) emptyResponse) as (_ & Hauth).
  destruct (Hauth _ _ _ Hin) as (H1 & _).
  exact H1.
Defined.

(** When client.AddAuth fails, the license check is still made, on the
    client that client.AddAuth returned. *)
Lemma preflight_on_attached_client_witness :
  let w := Demo.world Demo.authFails in
  let req := Demo.request Demo.apiKeyOnly in
  let r := run Demo.pid w req emptyResponse in
  In (EvCheckLicense "https://x.example/artifactory#auth"
        ["Enterprise"; "Commercial"; "Edge"]) (calls r) /\
  "https://x.example/artifactory#auth" = fst (authenticated Demo.pid w req).
Proof.
  cbv zeta.
  assert (Hin : In (EvCheckLicense "https://x.example/artifactory#auth"
                      ["Enterprise"; "Commercial"; "Edge"])
                   (calls (run Demo.pid (Demo.world Demo.authFails)
                             (Demo.request Demo.apiKeyOnly) emptyResponse))).
  { do 2 right; left; reflexivity. }
  split; [exact Hin|].
  destruct (preflight_on_attached_client Demo.pid (Demo.world Demo.authFails)
              (Demo.request Demo.apiKeyOnly) emptyResponse) as (Hlic & _).
  destruct (Hlic _ _ Hin) as (H1 & _).
  exact H1.
Defined.

(** With URL and token in the provider block, the token of the
    environment changes nothing. *)
Lemma environment_ignored_witness :
  let req := Demo.request Demo.tokenAndOidc in
  ValueString (Url (config req)) <> "" /\
  ValueString (AccessToken (config req)) <> "" /\
  run Demo.pid (with_env (Demo.world Demo.withOidc) (fun _ => "")) req emptyResponse
  = run Demo.pid (Demo.world Demo.withOidc) req emptyResponse.
Proof.
  cbv zeta.
  assert (Hurl : ValueString (Url (config (Demo.request Demo.tokenAndOidc))) <> "")
    by discriminate.
  assert (Htok : ValueString (AccessToken (config (Demo.request Demo.tokenAndOidc)))
                 <> "")
    by discriminate.
  split; [exact Hurl|]; split; [exact Htok|].
  exact (environment_ignored Demo.pid (Demo.world Demo.withOidc)
           (Demo.request Demo.tokenAndOidc) emptyResponse (fun _ => "") Hurl Htok).
Defined.
